(** * NanoVNASaver/Touchstone.py: Touchstone 1.1 reader

    A shallow embedding of [Options] and [Touchstone] from
    [NanoVNASaver/Touchstone.py] and the properties of the parser that
    follow from the code.

    Conventions of the embedding.
    - A Python [str] is a Rocq [string]; a character stands for the code
      point with the same number (0..255).
    - A Python [float] is an IEEE 754 binary64 value, [spec_float] at
      precision 53 and maximal exponent 1024, with the operations of
      [SpecFloat]; a Python [int] is a [Z].
    - A method is a function from the object before the call to the object
      after the call and either a returned value or the exception that was
      raised: what was mutated before a [raise] stays mutated.
    - [math.exp] is a parameter of the parser: nothing is assumed about
      the float it returns or the exception it raises.
    - Logging is not modelled. *)

From Stdlib Require Import ZArith List String Ascii Bool Lia SpecFloat DecimalString.
From Stdlib Require DecimalZ.
Import ListNotations.

Local Open Scope Z_scope.
Local Open Scope string_scope.
Local Open Scope list_scope.

(** ** Exceptions and the state-and-exception monad *)

Inductive exn_class : Set :=
| TypeError | AttributeError | ValueError | StopIteration
| IndexError | OverflowError | KeyError | AssertionError.

(** [exn_msg] is the message of a [raise] statement of the module itself;
    an exception raised by the interpreter or a builtin carries [None]
    (its wording differs between Python versions). *)
Record exn : Set := Exn { exn_kind : exn_class; exn_msg : option string }.

Definition raised (c : exn_class) (msg : string) : exn := Exn c (Some msg).
Definition builtin (c : exn_class) : exn := Exn c None.

Inductive result (A : Type) : Type :=
| Ok (a : A)
| Raise (e : exn).
Arguments Ok {A} a.
Arguments Raise {A} e.

Definition M (S A : Type) : Type := S -> S * result A.

Definition ret {S A} (a : A) : M S A := fun s => (s, Ok a).
Definition throw {S A} (e : exn) : M S A := fun s => (s, Raise e).
Definition bind {S A B} (m : M S A) (k : A -> M S B) : M S B :=
  fun s => match m s with
           | (s', Ok a) => k a s'
           | (s', Raise e) => (s', Raise e)
           end.
Definition get {S} : M S S := fun s => (s, Ok s).
Definition modify {S} (f : S -> S) : M S unit := fun s => (f s, Ok tt).
Definition lift {S A} (r : result A) : M S A := fun s => (s, r).

Declare Scope py_scope.
Delimit Scope py_scope with py.
Notation "x <- m ;; k" := (bind m (fun x => k))
  (at level 61, m at next level, right associativity) : py_scope.
Notation "m ;;; k" := (bind m (fun _ => k))
  (at level 61, right associativity) : py_scope.

(** ** The Python builtins the module calls *)

Module Py.

Definition float : Set := spec_float.
Definition prec : Z := 53.
Definition emax : Z := 1024.

Definition fmul : float -> float -> float := SFmul prec emax.
Definition fdiv : float -> float -> float := SFdiv prec emax.
Definition fle : float -> float -> bool := SFleb.
Definition flt : float -> float -> bool := SFltb.
Definition is_nan (x : float) : bool :=
  match x with S754_nan => true | _ => false end.

(** [float(n)] for an [int] [n]: the nearest binary64, ties to even. *)
Definition float_of_Z (n : Z) : float := binary_normalize prec emax n 0 false.

(** [str.isspace] on a one-character string, for code points below 256. *)
Definition isspace (c : ascii) : bool :=
  let n := nat_of_ascii c in
  ((9 <=? n) && (n <=? 13) || (28 <=? n) && (n <=? 32)
   || (n =? 133) || (n =? 160))%nat.

Definition lower_char (c : ascii) : ascii :=
  let n := nat_of_ascii c in
  if ((65 <=? n) && (n <=? 90) || (192 <=? n) && (n <=? 214)
      || (216 <=? n) && (n <=? 222))%nat
  then ascii_of_nat (n + 32) else c.

(** [str.upper] per character.  Three code points below 256 have an upper
    case outside that range (181, 223 and 255); they are left as they are. *)
Definition upper_char (c : ascii) : ascii :=
  let n := nat_of_ascii c in
  if ((97 <=? n) && (n <=? 122) || (224 <=? n) && (n <=? 246)
      || (248 <=? n) && (n <=? 254))%nat
  then ascii_of_nat (n - 32) else c.

Fixpoint smap (f : ascii -> ascii) (s : string) : string :=
  match s with
  | EmptyString => EmptyString
  | String c r => String (f c) (smap f r)
  end.

Definition lower : string -> string := smap lower_char.
Definition upper : string -> string := smap upper_char.

Definition startswith (s p : string) : bool := String.prefix p s.

(** [s[1:]] *)
Definition tail (s : string) : string :=
  match s with
  | EmptyString => EmptyString
  | String _ r => r
  end.

Fixpoint lstrip (s : string) : string :=
  match s with
  | EmptyString => EmptyString
  | String c r => if isspace c then lstrip r else s
  end.

Fixpoint rstrip (s : string) : string :=
  match s with
  | EmptyString => EmptyString
  | String c r =>
      match rstrip r with
      | EmptyString => if isspace c then EmptyString else String c EmptyString
      | r' => String c r'
      end
  end.

Definition strip (s : string) : string := rstrip (lstrip s).

(** [s.split()]: the maximal runs of characters that are not whitespace. *)
Fixpoint split (s : string) : list string :=
  match s with
  | EmptyString => []
  | String c r =>
      if isspace c then split r
      else match r with
           | EmptyString => [String c EmptyString]
           | String c' _ =>
               if isspace c' then String c EmptyString :: split r
               else match split r with
                    | w :: ws => String c w :: ws
                    | [] => [String c EmptyString]
                    end
           end
  end.

(** [s.split(sep)[0]]: the text before the first [sep]. *)
Fixpoint before (sep : ascii) (s : string) : string :=
  match s with
  | EmptyString => EmptyString
  | String c r => if Ascii.eqb c sep then EmptyString else String c (before sep r)
  end.

(** [needle in hay] for two strings. *)
Fixpoint contains (hay needle : string) : bool :=
  String.prefix needle hay
  || match hay with
     | EmptyString => false
     | String _ r => contains r needle
     end.

(** [x in xs] for a tuple or the keys of a dict. *)
Definition mem (x : string) (xs : list string) : bool :=
  existsb (String.eqb x) xs.

(** The lines an [io.StringIO] yields when iterated: each ends with its
    line feed, except possibly the last. *)
Fixpoint readlines (s : string) : list string :=
  match s with
  | EmptyString => []
  | String c r =>
      if Ascii.eqb c "010"%char then String c EmptyString :: readlines r
      else match readlines r with
           | l :: ls => String c l :: ls
           | [] => [String c EmptyString]
           end
  end.

(** [str(n)] for an [int] of at most [max_str_digits] decimal digits;
    for a longer one [str] raises [ValueError], which this function does
    not show. *)
Definition str_of_int (n : Z) : string := NilZero.string_of_int (Z.to_int n).

Definition is_digit (c : ascii) : bool :=
  let n := nat_of_ascii c in ((48 <=? n) && (n <=? 57))%nat.
Definition digit_val (c : ascii) : Z := Z.of_nat (nat_of_ascii c - 48).

(** A run of decimal digits in which single underscores may separate
    digits: its value and its number of digits. *)
Fixpoint digitpart (s : string) (acc : Z) (n : nat) (after_digit : bool)
  : option (Z * nat) :=
  match s with
  | EmptyString => if after_digit then Some (acc, n) else None
  | String c r =>
      if is_digit c then digitpart r (10 * acc + digit_val c) (S n) true
      else if Ascii.eqb c "_"%char && after_digit then digitpart r acc n false
      else None
  end.

(** An optional sign: [true] for minus. *)
Definition sign (s : string) : bool * string :=
  match s with
  | String "-"%char r => (true, r)
  | String "+"%char r => (false, r)
  | _ => (false, s)
  end.

(** The whitespace [int] and [float] skip around a number: that of
    [str.isspace] without the code points 28 to 31. *)
Definition isspace_num (c : ascii) : bool :=
  let n := nat_of_ascii c in
  ((9 <=? n) && (n <=? 13) || (n =? 32) || (n =? 133) || (n =? 160))%nat.

Fixpoint num_lstrip (s : string) : string :=
  match s with
  | EmptyString => EmptyString
  | String c r => if isspace_num c then num_lstrip r else s
  end.

Fixpoint num_rstrip (s : string) : string :=
  match s with
  | EmptyString => EmptyString
  | String c r =>
      match num_rstrip r with
      | EmptyString => if isspace_num c then EmptyString else String c EmptyString
      | r' => String c r'
      end
  end.

Definition num_strip (s : string) : string := num_rstrip (num_lstrip s).

(** The default of [sys.get_int_max_str_digits()]: [int] of a string with
    more digits raises [ValueError]. *)
Definition max_str_digits : nat := 4300.

(** [int(s)] *)
Definition int (s : string) : result Z :=
  let (neg, body) := sign (num_strip s) in
  match digitpart body 0 0 false with
  | Some (v, n) =>
      if (max_str_digits <? n)%nat then Raise (builtin ValueError)
      else Ok (if neg then - v else v)
  | None => Raise (builtin ValueError)
  end.

(** The nearest binary64 to [(-1)^neg * d * 10^e], ties to even. *)
Definition float_of_decimal (neg : bool) (d e : Z) : float :=
  match d with
  | Zpos p =>
      match e with
      | Zneg k =>
          let den := Z.pow_pos 10 k in
          let sh := Z.max 0 (64 + Z.log2_up den - Z.log2 d) in
          let (q, r) := Z.div_eucl (Z.shiftl d sh) den in
          binary_round_aux prec emax neg q (- sh) (new_location den r)
      | _ => binary_normalize prec emax ((if neg then -1 else 1) * d * 10 ^ e) 0 neg
      end
  | _ => S754_zero neg
  end.

(** The text before and after the first character satisfying [p], if any. *)
Fixpoint cut (p : ascii -> bool) (s : string) : string * option string :=
  match s with
  | EmptyString => (EmptyString, None)
  | String c r =>
      if p c then (EmptyString, Some r)
      else let (a, b) := cut p r in (String c a, b)
  end.

Definition is_e (c : ascii) : bool := Ascii.eqb c "e"%char || Ascii.eqb c "E"%char.
Definition is_dot (c : ascii) : bool := Ascii.eqb c "."%char.

(** The mantissa of a decimal literal: its digits as one integer and the
    number of digits after the point. *)
Definition mantissa (s : string) : option (Z * nat) :=
  match cut is_dot s with
  | (i, None) => match digitpart i 0 0 false with
                 | Some (v, _) => Some (v, 0%nat)
                 | None => None
                 end
  | (EmptyString, Some f) => digitpart f 0 0 false
  | (i, Some EmptyString) => match digitpart i 0 0 false with
                             | Some (v, _) => Some (v, 0%nat)
                             | None => None
                             end
  | (i, Some f) => match digitpart i 0 0 false with
                   | Some (v, _) => digitpart f v 0 false
                   | None => None
                   end
  end.

Definition exponent (s : option string) : option Z :=
  match s with
  | None => Some 0%Z
  | Some t => let (neg, body) := sign t in
              match digitpart body 0 0 false with
              | Some (v, _) => Some (if neg then - v else v)%Z
              | None => None
              end
  end.

(** [float(s)] for a string [s]. *)
Definition float_of_str (s : string) : result float :=
  let (neg, body) := sign (num_strip s) in
  let low := lower body in
  if String.eqb low "inf" || String.eqb low "infinity" then Ok (S754_infinity neg)
  else if String.eqb low "nan" then Ok S754_nan
  else
    let (m, x) := cut is_e body in
    match mantissa m, exponent x with
    | Some (d, k), Some e => Ok (float_of_decimal neg d (e - Z.of_nat k))
    | _, _ => Raise (builtin ValueError)
    end.

End Py.

(** ** class Options *)

Module Options.

Definition UNIT_TO_FACTOR : list (string * Z) :=
  [("ghz", 10 ^ 9); ("mhz", 10 ^ 6); ("khz", 10 ^ 3); ("hz", 10 ^ 0)].
Definition VALID_UNITS : list string := map fst UNIT_TO_FACTOR.
Definition VALID_PARAMETERS : string := "syzgh".
Definition VALID_FORMATS : list string := ["ma"; "db"; "ri"].

(** [UNIT_TO_FACTOR[key]] *)
Fixpoint lookup (key : string) (d : list (string * Z)) : result Z :=
  match d with
  | [] => Raise (builtin KeyError)
  | (k, v) :: d' => if String.eqb key k then Ok v else lookup key d'
  end.

Record t : Set := mk {
  unit : string;
  parameter : string;
  format : string;
  resistance : Z
}.

Definition set_parameter (p : string) (o : t) : t :=
  mk (unit o) p (format o) (resistance o).
Definition set_format (f : string) (o : t) : t :=
  mk (unit o) (parameter o) f (resistance o).
Definition set_resistance (r : Z) (o : t) : t :=
  mk (unit o) (parameter o) (format o) r.

(** [__init__]; the defaults are [Options("GHZ", "S", "ma", 50)]. *)
Definition init (unit parameter t_format : string) (resistance : Z) : result t :=
  if negb (Py.mem (Py.lower unit) VALID_UNITS) then Raise (builtin AssertionError)
  else if negb (Py.contains VALID_PARAMETERS (Py.lower parameter))
       then Raise (builtin AssertionError)
  else if negb (Py.mem (Py.lower t_format) VALID_FORMATS)
       then Raise (builtin AssertionError)
  else if negb (0 <? resistance)%Z then Raise (builtin AssertionError)
  else Ok (mk (Py.lower unit) (Py.lower parameter) (Py.lower t_format) resistance).

Definition default : t := mk "ghz" "s" "ma" 50.

(** The property [factor]. *)
Definition factor (o : t) : result Z := lookup (unit o) UNIT_TO_FACTOR.

(** [self.factor = v].  [factor] is declared with [@property] alone, so the
    class has no setter for it and the assignment raises [AttributeError]
    without storing anything. *)
Definition set_factor (v : Z) : M t Datatypes.unit := throw (builtin AttributeError).

(** [__str__] *)
Definition to_string (o : t) : string :=
  Py.upper ("# " ++ unit o ++ " " ++ parameter o ++ " " ++ format o
            ++ " r " ++ Py.str_of_int (resistance o))%string.

(** The four flags [pfact], [pparam], [pformat], [presist] of [parse]. *)
Record flags : Set := Flags { pfact : bool; pparam : bool; pformat : bool; presist : bool }.

(** The loop [for p in params] of [parse]; [next(params)] in the body takes
    the token after [p] off the same iterator. *)
Fixpoint parse_params (line : string) (params : list string) (f : flags) : M t Datatypes.unit :=
  match params with
  | [] => ret tt
  | p :: rest =>
      if Py.mem p VALID_UNITS && negb (pfact f) then
        (v <- lift (lookup p UNIT_TO_FACTOR) ;;
         set_factor v ;;;
         parse_params line rest (Flags true (pparam f) (pformat f) (presist f)))%py
      else if Py.contains VALID_PARAMETERS p && negb (pparam f) then
        (modify (set_parameter p) ;;;
         parse_params line rest (Flags (pfact f) true (pformat f) (presist f)))%py
      else if Py.mem p VALID_FORMATS && negb (pformat f) then
        (modify (set_format p) ;;;
         parse_params line rest (Flags (pfact f) (pparam f) true (presist f)))%py
      else if String.eqb p "r" && negb (presist f) then
        match rest with
        | [] => throw (builtin StopIteration)
        | n :: rest' =>
            (r <- lift (Py.int n) ;;
             modify (set_resistance r) ;;;
             parse_params line rest' f)%py
        end
      else throw (raised TypeError ("Illegial option line: " ++ line)%string)
  end.

(** [parse(line)]; [None] stands for the Python [None]. *)
Definition parse (line : option string) : M t Datatypes.unit :=
  match line with
  | None => throw (builtin AttributeError)
  | Some line =>
      if negb (Py.startswith line "#")
      then throw (raised TypeError ("Not an option line: " ++ line)%string)
      else parse_params line (Py.split (Py.lower (Py.tail line)))
                        (Flags false false false false)
  end.

End Options.

(** ** class Touchstone *)

(** Modelled from the spec: [Datapoint] of [NanoVNASaver.RFTools], a point
    with the three fields frequency, real part and imaginary part. *)
Record Datapoint : Set := mkDatapoint {
  freq : Py.float;
  re : Py.float;
  im : Py.float
}.

(** What [open(self.filename)] followed by [infile.read()] gives: the text
    of the file, an [IOError], or another exception. *)
Inductive file_read : Set :=
| FileText (s : string)
| FileIOError
| FileRaise (e : exn).

Module Touchstone.

Record t : Set := mk {
  filename : string;
  sdata : list (list Datapoint);
  comments : list string;
  opts : Options.t
}.

(** [__init__] *)
Definition init (filename : string) : t :=
  mk filename [[]; []; []; []] [] Options.default.

Definition s11data (o : t) : list Datapoint := nth 0 (sdata o) [].
Definition s21data (o : t) : list Datapoint := nth 1 (sdata o) [].
Definition s12data (o : t) : list Datapoint := nth 2 (sdata o) [].
Definition s22data (o : t) : list Datapoint := nth 3 (sdata o) [].

Definition add_comment (line : string) (o : t) : t :=
  mk (filename o) (sdata o) (comments o ++ [line]) (opts o).

(** [l[k].append(x)] on a list of lists. *)
Fixpoint append_at (k : nat) (x : Datapoint) (l : list (list Datapoint))
  : list (list Datapoint) :=
  match l, k with
  | [], _ => []
  | s :: l', O => (s ++ [x]) :: l'
  | s :: l', S k' => s :: append_at k' x l'
  end.

Definition append_point (k : nat) (x : Datapoint) (o : t) : t :=
  mk (filename o) (append_at k x (sdata o)) (comments o) (opts o).

(** A method of [self.opts] run on the parser. *)
Definition on_opts {A} (m : M Options.t A) : M t A :=
  fun o => let (op, r) := m (opts o) in
           (mk (filename o) (sdata o) (comments o) op, r).

(** [_parse_comments(fp)]: the returned line, [None] when the file ends
    first, and the lines left in [fp]. *)
Fixpoint parse_comments (fp : list string) : M t (option string * list string) :=
  match fp with
  | [] => ret (None, [])
  | line :: fp' =>
      let line := Py.strip line in
      if Py.startswith line "!"
      then (modify (add_comment line) ;;; parse_comments fp')%py
      else ret (Some line, fp')
  end.

(** [cmath.polar] called with two arguments.  The function takes one
    complex number, so the call raises [TypeError] once both arguments
    have been evaluated. *)
Definition cmath_polar2 (r phi : Py.float) : result (Py.float * Py.float) :=
  Raise (builtin TypeError).

(** [next(data_list)]: the index of the next list of [self.sdata]. *)
Definition next_slot (k : nat) : M t nat :=
  fun o => if (k <? List.length (sdata o))%nat then (o, Ok k)
           else (o, Raise (builtin StopIteration)).

Section Libm.

(** [math.exp]: the float it returns or the exception it raises. *)
Variable math_exp : Py.float -> result Py.float.

(** The loop of [_append_line_data]: [vals] is what the iterator over the
    line's values still holds and [k] counts the lists of [self.sdata]
    already taken from [data_list].  The three [if] of the body test the
    same string, so at most one of them runs. *)
Fixpoint append_loop (freq : Py.float) (vals : list string) (k : nat) : M t unit :=
  match vals with
  | [] => ret tt
  | v :: rest =>
      (o <- get ;;
       let fmt := Options.format (opts o) in
       if String.eqb fmt "ri" then
         slot <- next_slot k ;;
         x <- lift (Py.float_of_str v) ;;
         match rest with
         | [] => throw (builtin StopIteration)
         | w :: rest' =>
             y <- lift (Py.float_of_str w) ;;
             modify (append_point slot (mkDatapoint freq x y)) ;;;
             append_loop freq rest' (S k)
         end
       else if String.eqb fmt "ma" then
         x <- lift (Py.float_of_str v) ;;
         match rest with
         | [] => throw (builtin StopIteration)
         | w :: rest' =>
             y <- lift (Py.float_of_str w) ;;
             z <- lift (cmath_polar2 x y) ;;
             slot <- next_slot k ;;
             modify (append_point slot (mkDatapoint freq (fst z) (snd z))) ;;;
             append_loop freq rest' (S k)
         end
       else if String.eqb fmt "db" then
         x <- lift (Py.float_of_str v) ;;
         m <- lift (math_exp (Py.fdiv x (Py.float_of_Z 20))) ;;
         match rest with
         | [] => throw (builtin StopIteration)
         | w :: rest' =>
             y <- lift (Py.float_of_str w) ;;
             z <- lift (cmath_polar2 m y) ;;
             slot <- next_slot k ;;
             modify (append_point slot (mkDatapoint freq (fst z) (snd z))) ;;;
             append_loop freq rest' (S k)
         end
       else append_loop freq rest k)%py
  end.

(** [_append_line_data(freq, data)] *)
Definition append_line_data (freq : Py.float) (data : list string) : M t unit :=
  append_loop freq data 0.

(** The checks of [loads] on the number of values of a line: the new
    [prev_len], or the [TypeError] raised. *)
Definition check_len (line : string) (prev_len data_len : nat) : result nat :=
  if (prev_len =? 0)%nat then
    if Nat.odd data_len
    then Raise (raised TypeError ("Data values aren't pairs: " ++ line)%string)
    else Ok data_len
  else if negb (data_len =? prev_len)%nat
       then Raise (raised TypeError ("Inconsistent number of pairs: " ++ line)%string)
       else Ok prev_len.

(** The loop [for line in file] of [loads]. *)
Fixpoint data_lines (file : list string) (prev_freq : Py.float) (prev_len : nat)
  : M t unit :=
  match file with
  | [] => ret tt
  | line :: file' =>
      if String.eqb (Py.strip line) "" then data_lines file' prev_freq prev_len
      else
        match Py.split (Py.before "!" line) with
        | [] => throw (builtin IndexError)
        | d0 :: data =>
            (x <- lift (Py.float_of_str d0) ;;
             o <- get ;;
             k <- lift (Options.factor (opts o)) ;;
             let freq := Py.fmul x (Py.float_of_Z k) in
             let data_len := List.length data in
             if Py.fle freq prev_freq
             then throw (raised TypeError ("Frequeny not ascending: " ++ line)%string)
             else
               prev_len' <- lift (check_len line prev_len data_len) ;;
               append_line_data freq data ;;;
               data_lines file' freq prev_len')%py
        end
  end.

(** [loads(s)] *)
Definition loads (s : string) : M t unit :=
  (r <- parse_comments (Py.readlines s) ;;
   on_opts (Options.parse (fst r)) ;;;
   data_lines (snd r) (S754_zero false) 0)%py.

(** The two [except] clauses of [load] for what the [try] block raised:
    a [TypeError] is logged and the call returns. *)
Definition except_TypeError (r : result unit) : result unit :=
  match r with
  | Ok a => Ok a
  | Raise e => match exn_kind e with
               | TypeError => Ok tt
               | _ => Raise e
               end
  end.

(** [load()]; [read] stands for the file system. *)
Definition load (read : string -> file_read) : M t unit :=
  fun o => match read (filename o) with
           | FileText s => let (o', r) := loads s o in (o', except_TypeError r)
           | FileIOError => (o, Ok tt)
           | FileRaise e => (o, except_TypeError (Raise e))
           end.

End Libm.

(** [setFilename(filename)] *)
Definition setFilename (name : string) : M t unit :=
  modify (fun o => mk name (sdata o) (comments o) (opts o)).

End Touchstone.

(** ** Auxiliary definitions for the statements *)

(** The line feed, ["\n"] in Python. *)
Definition LF : string := String "010"%char EmptyString.

(** The tokens [parse] loops over for an options line. *)
Definition option_tokens (line : string) : list string :=
  Py.split (Py.lower (Py.tail line)).

(** The positive float zero, [0.0]. *)
Definition fzero : Py.float := S754_zero false.

(** Slot by slot, the series [a] followed by the series [b]. *)
Fixpoint zipapp (a b : list (list Datapoint)) : list (list Datapoint) :=
  match a, b with
  | x :: a', y :: b' => (x ++ y) :: zipapp a' b'
  | _, _ => []
  end.

(** The parser [o] with its series and comments emptied: same file name,
    same number of series, same options. *)
Definition blank (o : Touchstone.t) : Touchstone.t :=
  Touchstone.mk (Touchstone.filename o)
                (map (fun _ => []) (Touchstone.sdata o))
                []
                (Touchstone.opts o).

(** The parser [o] with the series and comments of [b] put in front of
    its own. *)
Definition graft (b o : Touchstone.t) : Touchstone.t :=
  Touchstone.mk (Touchstone.filename o)
                (zipapp (Touchstone.sdata b) (Touchstone.sdata o))
                (Touchstone.comments b ++ Touchstone.comments o)
                (Touchstone.opts o).

(** The state after [m] run on [graft b o] is [graft b] of the state after
    [m] run on [o], with the same outcome. *)
Definition frames {A} (b : Touchstone.t) (m : M Touchstone.t A)
  (o : Touchstone.t) : Prop :=
  m (graft b o) = (graft b (fst (m o)), snd (m o)).

(** Two parsers with the same number of series. *)
Definition same_slots (b o : Touchstone.t) : Prop :=
  List.length (Touchstone.sdata b) = List.length (Touchstone.sdata o).

(** Unfolds the operations of the monad in the goal and the hypotheses. *)
Ltac unfold_monad :=
  unfold bind, get, lift, modify, ret, throw, Touchstone.next_slot,
    Touchstone.on_opts in *; cbv beta in *.

(** The frequency [loads] computes for a data line, when the line has a
    first token that [float] reads: the token times the factor [k]. *)
Definition line_freq (k : Z) (line : string) : option Py.float :=
  match Py.split (Py.before "!" line) with
  | d0 :: _ => match Py.float_of_str d0 with
               | Ok x => Some (Py.fmul x (Py.float_of_Z k))
               | Raise _ => None
               end
  | [] => None
  end.

(** The number of values of a data line: its tokens after the first. *)
Definition line_values (line : string) : nat :=
  List.length (List.tl (Py.split (Py.before "!" line))).

Definition is_blank (line : string) : bool := String.eqb (Py.strip line) "".

(** The frequencies of the lines of [file] that are not blank. *)
Fixpoint file_freqs (k : Z) (file : list string) : list (option Py.float) :=
  match file with
  | [] => []
  | line :: file' =>
      if is_blank line then file_freqs k file'
      else line_freq k line :: file_freqs k file'
  end.

(** Each frequency fails the test [freq <= prev_freq] against the one
    before it, the first against [prev]. *)
Fixpoint passes_order (prev : Py.float) (fs : list (option Py.float)) : Prop :=
  match fs with
  | [] => True
  | Some f :: fs' => Py.fle f prev = false /\ passes_order f fs'
  | None :: _ => False
  end.

(** Each frequency is a number greater than the one before it. *)
Fixpoint ascending (prev : Py.float) (fs : list (option Py.float)) : Prop :=
  match fs with
  | [] => True
  | Some f :: fs' => Py.flt prev f = true /\ ascending f fs'
  | None :: _ => False
  end.

Definition no_nan (fs : list (option Py.float)) : Prop :=
  Forall (fun f => match f with Some x => Py.is_nan x = false | None => True end) fs.

(** ** Auxiliary definitions for the further properties *)

(** The three enumerations [__init__] asserts. *)
Definition valid_enums (o : Options.t) : Prop :=
  Py.mem (Options.unit o) Options.VALID_UNITS = true
  /\ Py.contains Options.VALID_PARAMETERS (Options.parameter o) = true
  /\ Py.mem (Options.format o) Options.VALID_FORMATS = true.

(** What a run of [parse] stores: for each of the three attributes it can
    assign, the last value assigned, if any. *)
Record update : Set := Update {
  new_parameter : option string;
  new_format : option string;
  new_resistance : option Z
}.

Definition no_update : update := Update None None None.

Definition pick {A} (new : option A) (old : A) : A :=
  match new with Some a => a | None => old end.

Definition apply_update (u : update) (o : Options.t) : Options.t :=
  Options.mk (Options.unit o)
             (pick (new_parameter u) (Options.parameter o))
             (pick (new_format u) (Options.format o))
             (pick (new_resistance u) (Options.resistance o)).

(** A line [_parse_comments] takes as a comment. *)
Definition is_comment (line : string) : bool :=
  Py.startswith (Py.strip line) "!".

(** The values of a data line read two by two, when their number is even
    and [float] reads each of them. *)
Fixpoint read_pairs (vals : list string) : option (list (Py.float * Py.float)) :=
  match vals with
  | [] => Some []
  | a :: rest =>
      match rest with
      | [] => None
      | b :: rest' =>
          match Py.float_of_str a, Py.float_of_str b, read_pairs rest' with
          | Ok x, Ok y, Some ps => Some ((x, y) :: ps)
          | _, _, _ => None
          end
      end
  end.

Definition point_of (fr : Py.float) (p : Py.float * Py.float) : Datapoint :=
  mkDatapoint fr (fst p) (snd p).

(** The series [sd] with the points of [ps] at the frequency [fr] appended,
    the first to series [k], the next to series [k + 1], and so on. *)
Fixpoint add_points (fr : Py.float) (k : nat) (ps : list (Py.float * Py.float))
  (sd : list (list Datapoint)) : list (list Datapoint) :=
  match ps with
  | [] => sd
  | p :: ps' => add_points fr (S k) ps' (Touchstone.append_at k (point_of fr p) sd)
  end.

Definition with_sdata (sd : list (list Datapoint)) (o : Touchstone.t) : Touchstone.t :=
  Touchstone.mk (Touchstone.filename o) sd (Touchstone.comments o) (Touchstone.opts o).

Definition with_comments (cm : list string) (o : Touchstone.t) : Touchstone.t :=
  Touchstone.mk (Touchstone.filename o) (Touchstone.sdata o) cm (Touchstone.opts o).

(** Each frequency is below the next one. *)
Fixpoint chain (fs : list Py.float) : Prop :=
  match fs with
  | x :: (y :: _) as fs' => Py.flt x y = true /\ chain fs'
  | _ => True
  end.

(** The frequencies of the points of a series. *)
Definition freqs (s : list Datapoint) : list Py.float := map freq s.

(** The lines of [file] that are not blank. *)
Definition nonblank (file : list string) : list string :=
  filter (fun line => negb (is_blank line)) file.

(** A text without whitespace and without upper-case letters. *)
Fixpoint plain (s : string) : bool :=
  match s with
  | EmptyString => true
  | String c r =>
      negb (Py.isspace c) && Ascii.eqb (Py.lower_char c) c && plain r
  end.

(** The number a run of decimal digits denotes after the digits of [acc]. *)
Fixpoint uint_val (d : Decimal.uint) (acc : Z) : Z :=
  match d with
  | Decimal.Nil => acc
  | Decimal.D0 l => uint_val l (10 * acc + 0)
  | Decimal.D1 l => uint_val l (10 * acc + 1)
  | Decimal.D2 l => uint_val l (10 * acc + 2)
  | Decimal.D3 l => uint_val l (10 * acc + 3)
  | Decimal.D4 l => uint_val l (10 * acc + 4)
  | Decimal.D5 l => uint_val l (10 * acc + 5)
  | Decimal.D6 l => uint_val l (10 * acc + 6)
  | Decimal.D7 l => uint_val l (10 * acc + 7)
  | Decimal.D8 l => uint_val l (10 * acc + 8)
  | Decimal.D9 l => uint_val l (10 * acc + 9)
  end.

(** A point of the series has the frequency NaN. *)
Definition has_nan (s : list Datapoint) : bool :=
  existsb (fun p => Py.is_nan (freq p)) s.

(** The series [s] holds a NaN, or its frequencies ascend up to [prev]. *)
Definition good (prev : Py.float) (s : list Datapoint) : Prop :=
  has_nan s = true \/ (chain (freqs s) /\ List.last (freqs s) prev = prev).

Definition allempty (sd : list (list Datapoint)) : Prop :=
  forall i, nth i sd [] = [].

(** The first [n] series hold [len] points each, up to the frequency
    [prev]; the other series are empty. *)
Definition full_rows (prev : Py.float) (n len : nat) (sd : list (list Datapoint))
  : Prop :=
  (0 < n)%nat /\ (n <= List.length sd)%nat
  /\ forall i, ((i < n)%nat -> nth i sd [] <> []
                               /\ List.length (nth i sd []) = len
                               /\ good prev (nth i sd []))
               /\ ((n <= i)%nat -> nth i sd [] = []).

(** What the loop of [loads] keeps true of the series between two lines,
    [prev] and [plen] being its [prev_freq] and [prev_len]. *)
Definition series_inv (prev : Py.float) (plen : nat) (o : Touchstone.t) : Prop :=
  allempty (Touchstone.sdata o)
  \/ (Options.format (Touchstone.opts o) = "ri"
      /\ exists n len, plen = (2 * n)%nat
                       /\ full_rows prev n len (Touchstone.sdata o)).

(** Every series without NaN has ascending frequencies. *)
Definition series_ascend (sd : list (list Datapoint)) : Prop :=
  forall i, has_nan (nth i sd []) = false -> chain (freqs (nth i sd [])).

(** The series that are not empty have the same number of points. *)
Definition same_length (sd : list (list Datapoint)) : Prop :=
  exists len, forall i, nth i sd [] = [] \/ List.length (nth i sd []) = len.

(** A text of whitespace only. *)
Fixpoint spaces (s : string) : bool :=
  match s with
  | EmptyString => true
  | String c r => Py.isspace c && spaces r
  end.

(** ** Options *)

Section OptionsFacts.

Import Options.

Lemma default_is_init : init "GHZ" "S" "ma" 50 = Ok default.
Proof. reflexivity. Qed.

(** The factor of each unit, as the property [factor] returns it. *)
Lemma factor_table :
  factor (mk "hz" "s" "ma" 50) = Ok 1
  /\ factor (mk "khz" "s" "ma" 50) = Ok 1000
  /\ factor (mk "mhz" "s" "ma" 50) = Ok 1000000
  /\ factor (mk "ghz" "s" "ma" 50) = Ok 1000000000.
Proof. repeat split. Qed.

Lemma factor_depends_on_unit (o o' : t) :
  unit o = unit o' -> factor o = factor o'.
Proof. unfold factor. now intros ->. Qed.

(** [parse] never stores a unit: the object keeps the unit it had. *)
Lemma parse_params_unit_bounded line (n : nat) :
  forall params f o, (List.length params <= n)%nat ->
    unit (fst (parse_params line params f o)) = unit o.
Proof.
  induction n as [|n IH]; intros [|p rest] f o Hn; try reflexivity.
  { cbn in Hn. lia. }
  cbn [List.length] in Hn. cbn [parse_params].
  destruct (Py.mem p VALID_UNITS && negb (pfact f)).
  { unfold bind, lift, set_factor, throw.
    destruct (lookup p UNIT_TO_FACTOR); reflexivity. }
  destruct (Py.contains VALID_PARAMETERS p && negb (pparam f)).
  { unfold bind, modify. rewrite IH by lia. reflexivity. }
  destruct (Py.mem p VALID_FORMATS && negb (pformat f)).
  { unfold bind, modify. rewrite IH by lia. reflexivity. }
  destruct (String.eqb p "r" && negb (presist f)); [|reflexivity].
  destruct rest as [|k rest']; [reflexivity|].
  cbn [List.length] in Hn.
  unfold bind, lift, modify. destruct (Py.int k); [|reflexivity].
  rewrite IH by lia. reflexivity.
Qed.

Lemma parse_params_unit line params f o :
  unit (fst (parse_params line params f o)) = unit o.
Proof. now apply (parse_params_unit_bounded line (List.length params)). Qed.

Lemma parse_unit line o : unit (fst (parse line o)) = unit o.
Proof.
  destruct line as [line|]; [|reflexivity]. unfold parse.
  destruct (negb (Py.startswith line "#")); [reflexivity|].
  apply parse_params_unit.
Qed.

Lemma lookup_valid_unit u :
  Py.mem u VALID_UNITS = true -> exists v, lookup u UNIT_TO_FACTOR = Ok v.
Proof.
  unfold Py.mem, VALID_UNITS, UNIT_TO_FACTOR. cbn [map fst existsb lookup].
  destruct (String.eqb u "ghz"); [eauto|].
  destruct (String.eqb u "mhz"); [eauto|].
  destruct (String.eqb u "khz"); [eauto|].
  destruct (String.eqb u "hz"); [eauto|discriminate].
Qed.

(** A unit keyword met while [pfact] is still false ends the call with
    [AttributeError]. *)
Lemma parse_params_unit_token line u rest f o :
  Py.mem u VALID_UNITS = true -> pfact f = false ->
  parse_params line (u :: rest) f o = (o, Raise (builtin AttributeError)).
Proof.
  intros Hu Hf. cbn [parse_params]. rewrite Hu, Hf. cbn [negb andb].
  destruct (lookup_valid_unit u Hu) as [v Hv].
  unfold bind, lift, set_factor, throw. now rewrite Hv.
Qed.

Lemma unit_is_no_int u :
  Py.mem u VALID_UNITS = true -> Py.int u = Raise (builtin ValueError).
Proof.
  unfold Py.mem, VALID_UNITS, UNIT_TO_FACTOR. cbn [map fst existsb].
  destruct (String.eqb_spec u "ghz") as [->|_]; [reflexivity|].
  destruct (String.eqb_spec u "mhz") as [->|_]; [reflexivity|].
  destruct (String.eqb_spec u "khz") as [->|_]; [reflexivity|].
  destruct (String.eqb_spec u "hz") as [->|_]; [reflexivity|discriminate].
Qed.

(** No token list that holds a unit keyword is read to its end. *)
Lemma parse_params_with_unit_bounded line u (n : nat) :
  Py.mem u VALID_UNITS = true ->
  forall params f o, (List.length params <= n)%nat -> pfact f = false ->
    In u params -> exists e, snd (parse_params line params f o) = Raise e.
Proof.
  intros Hu. induction n as [|n IH]; intros [|p rest] f o Hn Hf Hin;
    try contradiction.
  { cbn in Hn. lia. }
  cbn [List.length] in Hn.
  destruct (Py.mem p VALID_UNITS) eqn:Hp.
  { rewrite parse_params_unit_token by assumption. cbn. eauto. }
  assert (Hrest : In u rest).
  { destruct Hin as [->|H]; [congruence|exact H]. }
  cbn [parse_params]. rewrite Hp. cbn [andb].
  destruct (Py.contains VALID_PARAMETERS p && negb (pparam f)).
  { unfold bind, modify. apply IH; [lia|exact Hf|exact Hrest]. }
  destruct (Py.mem p VALID_FORMATS && negb (pformat f)).
  { unfold bind, modify. apply IH; [lia|exact Hf|exact Hrest]. }
  destruct (String.eqb p "r" && negb (presist f)); [|cbn; eauto].
  destruct rest as [|k rest']; [contradiction|].
  cbn [List.length] in Hn. unfold bind, lift, modify.
  destruct (Py.int k) as [z|e] eqn:Hk; [|cbn; eauto].
  apply IH; [lia|exact Hf|].
  destruct Hrest as [->|H]; [|exact H].
  rewrite (unit_is_no_int u Hu) in Hk. discriminate.
Qed.

Lemma parse_with_unit_raises line u o :
  Py.mem u VALID_UNITS = true -> In u (option_tokens line) ->
  exists e, snd (parse (Some line) o) = Raise e.
Proof.
  intros Hu Hin. unfold parse.
  destruct (negb (Py.startswith line "#")); [cbn; eauto|].
  now apply (parse_params_with_unit_bounded line u
               (List.length (option_tokens line)) Hu).
Qed.

(** [presist] is never set: an [r] token followed by an integer is read
    whatever came before it, and leaves the flags as they were. *)
Lemma parse_params_r line k z rest f o :
  presist f = false -> Py.int k = Ok z ->
  parse_params line ("r" :: k :: rest) f o
  = parse_params line rest f (set_resistance z o).
Proof.
  intros Hr Hk. cbn [parse_params].
  replace (Py.mem "r" VALID_UNITS) with false by reflexivity.
  replace (Py.contains VALID_PARAMETERS "r") with false by reflexivity.
  replace (Py.mem "r" VALID_FORMATS) with false by reflexivity.
  cbn [andb]. rewrite Hr. cbn [String.eqb Ascii.eqb Bool.eqb negb andb].
  unfold bind, lift, modify. now rewrite Hk.
Qed.

(** C1, where the code departs from the claim.  The claim: an options line
    with a unit keyword makes [parse] record that unit, and the factor of
    the unit then scales the frequencies of the data lines.  The code: on
    the header [# MHz S MA R 50] the call raises [AttributeError] at the
    token [mhz] and the object keeps its unit [ghz] and factor [10^9];
    loading a body with that header stops there, with no point stored. *)
Theorem parse_unit_keyword_raises :
  parse (Some "# MHz S MA R 50") default = (default, Raise (builtin AttributeError))
  /\ factor (fst (parse (Some "# MHz S MA R 50") default)) = Ok (10 ^ 9)
  /\ forall math_exp,
       Touchstone.loads math_exp ("# MHz S RI R 50" ++ LF ++ "100 1 2" ++ LF)%string
         (Touchstone.init "f")
       = (Touchstone.init "f", Raise (builtin AttributeError)).
Proof. repeat split. Qed.

(** C2, where the code departs from the claim.  The claim: [parse] applied
    to the text of [__str__] gives back the same unit, parameter, format
    and resistance.  The code: for each of the four units and every
    parameter, format and resistance, [parse] applied to that text raises
    [AttributeError] at the unit token and changes nothing in the object
    it was called on. *)
Theorem to_string_parse_raises :
  Forall (fun u => forall p f r o,
            parse (Some (to_string (mk u p f r))) o
            = (o, Raise (builtin AttributeError)))
         VALID_UNITS.
Proof.
  repeat constructor; intros p f r o; unfold to_string, parse;
    cbn [unit parameter format resistance];
    vm_compute; reflexivity.
Qed.

(** C7, where the code departs from the claim.  The claim: a token that is
    no keyword, a keyword of a category already set, and an [r] without an
    integer after it each fail with the format error ([TypeError]), and
    every other token is read.  The code: a second [r] is read and
    overwrites the resistance; an [r] at the end raises [StopIteration]
    and an [r] before a token that is no integer raises [ValueError]; the
    token [gh], which is no parameter keyword, is stored as the parameter;
    a unit keyword raises [AttributeError]. *)
Theorem parse_repeated_r_accepted :
  parse (Some "# R 50 R 75") default = (mk "ghz" "s" "ma" 75, Ok tt)
  /\ parse (Some "# S R") default = (default, Raise (builtin StopIteration))
  /\ parse (Some "# R 5.5") default = (default, Raise (builtin ValueError))
  /\ parse (Some "# GH") default = (mk "ghz" "gh" "ma" 50, Ok tt)
  /\ parse (Some "# HZ") default = (default, Raise (builtin AttributeError)).
Proof. repeat split. Qed.

End OptionsFacts.

(** ** Touchstone: the conversion of value pairs *)

Section Conversion.

Import Touchstone.

Variable math_exp : Py.float -> result Py.float.

(** With the format [ma] or [db] the first value of a line already ends
    [_append_line_data] with an exception, and nothing is appended. *)
Lemma polar_formats_never_append fr v rest k o :
  Options.format (opts o) = "ma" \/ Options.format (opts o) = "db" ->
  exists e, append_loop math_exp fr (v :: rest) k o = (o, Raise e).
Proof.
  intros [H|H]; cbn [append_loop]; unfold bind, get, lift; rewrite H;
    cbn [String.eqb Ascii.eqb Bool.eqb];
    destruct (Py.float_of_str v) as [x|e]; eauto.
  - destruct rest as [|w rest']; [unfold throw; eauto|].
    destruct (Py.float_of_str w); cbn; eauto.
  - destruct (math_exp _); eauto.
    destruct rest as [|w rest']; [unfold throw; eauto|].
    destruct (Py.float_of_str w); cbn; eauto.
Qed.

(** With the format [ri] and four series, a line of more than eight
    numeric values has its first four pairs appended, one to each series,
    and [next(data_list)] then raises [StopIteration] for the fifth. *)
Lemma ri_fifth_pair_exhausts fr fn s0 s1 s2 s3 cm op
      a1 b1 a2 b2 a3 b3 a4 b4 x1 y1 x2 y2 x3 y3 x4 y4 v rest :
  Options.format op = "ri" ->
  Py.float_of_str a1 = Ok x1 -> Py.float_of_str b1 = Ok y1 ->
  Py.float_of_str a2 = Ok x2 -> Py.float_of_str b2 = Ok y2 ->
  Py.float_of_str a3 = Ok x3 -> Py.float_of_str b3 = Ok y3 ->
  Py.float_of_str a4 = Ok x4 -> Py.float_of_str b4 = Ok y4 ->
  append_line_data math_exp fr
    (a1 :: b1 :: a2 :: b2 :: a3 :: b3 :: a4 :: b4 :: v :: rest)
    (mk fn [s0; s1; s2; s3] cm op)
  = (mk fn [s0 ++ [mkDatapoint fr x1 y1]; s1 ++ [mkDatapoint fr x2 y2];
            s2 ++ [mkDatapoint fr x3 y3]; s3 ++ [mkDatapoint fr x4 y4]] cm op,
     Raise (builtin StopIteration)).
Proof.
  intros Hf H1 H2 H3 H4 H5 H6 H7 H8.
  unfold append_line_data. cbn [append_loop].
  unfold bind, get, lift, modify, next_slot, throw. cbn. rewrite Hf. cbn.
  rewrite H1, H2. cbn. rewrite Hf. cbn.
  rewrite H3, H4. cbn. rewrite Hf. cbn.
  rewrite H5, H6. cbn. rewrite Hf. cbn.
  rewrite H7, H8. cbn. rewrite Hf. cbn. reflexivity.
Qed.

(** C3, where the code departs from the claim.  The claim: with the format
    [db] a pair [(v1, v2)] becomes the point of magnitude [10^(v1/20)] and
    angle [v2] degrees, so [(0, 0)] gives [(1.0, 0.0)] and [(20, 0)] gives
    [(10.0, 0.0)].  The code: it takes [math.exp(v1/20)] and then calls
    [cmath.polar] with two arguments; for the bodies below the load ends
    with the exception of [math.exp], if it raises one, and with
    [TypeError] otherwise, and no point is stored. *)
Theorem db_pair_raises :
  loads math_exp ("# DB" ++ LF ++ "1 0 0" ++ LF)%string (init "f")
  = (mk "f" [[]; []; []; []] [] (Options.mk "ghz" "s" "db" 50),
     Raise (match math_exp (Py.fdiv fzero (Py.float_of_Z 20)) with
            | Ok _ => builtin TypeError
            | Raise e => e
            end))
  /\ loads math_exp ("# DB" ++ LF ++ "1 20 0" ++ LF)%string (init "f")
     = (mk "f" [[]; []; []; []] [] (Options.mk "ghz" "s" "db" 50),
        Raise (match math_exp (Py.fdiv (Py.float_of_Z 20) (Py.float_of_Z 20)) with
               | Ok _ => builtin TypeError
               | Raise e => e
               end)).
Proof.
  split; vm_compute; match goal with |- context [math_exp ?x] =>
    destruct (math_exp x) end; reflexivity.
Qed.

(** C4, where the code departs from the claim.  The claim: with the format
    [ma] a pair is a magnitude and an angle in degrees and becomes the
    rectangular point, so [(1, 0)] gives [(1.0, 0.0)] and [(2, 90)] gives
    about [(0.0, 2.0)].  The code: it calls [cmath.polar] with two
    arguments; for the bodies below the load ends with [TypeError] and no
    point is stored. *)
Theorem ma_pair_raises :
  loads math_exp ("# MA" ++ LF ++ "1 1 0" ++ LF)%string (init "f")
  = (init "f", Raise (builtin TypeError))
  /\ loads math_exp ("# MA" ++ LF ++ "1 2 90" ++ LF)%string (init "f")
     = (init "f", Raise (builtin TypeError)).
Proof. split; reflexivity. Qed.

(** C10, where the code departs from the claim.  The claim: a line of more
    than eight values, even in number, gets its first four pairs appended
    and then fails with [StopIteration] at the fifth.  The code: with the
    format [ma], which a new parser has, or [db], the first pair of such a
    line already ends the load with [TypeError] and nothing is appended
    (with [ri] the line behaves as claimed, [ri_fifth_pair_exhausts]). *)
Theorem ten_values_ma_raises :
  loads math_exp ("#" ++ LF ++ "1 1 2 3 4 5 6 7 8 9 10" ++ LF)%string (init "f")
  = (init "f", Raise (builtin TypeError)).
Proof. reflexivity. Qed.

End Conversion.

(** ** Floats: the order of numbers *)

Section FloatOrder.

Lemma SFcompare_antisym (x y : Py.float) :
  SFcompare y x = option_map CompOpp (SFcompare x y).
Proof.
  destruct x as [s| s | |s m e], y as [s'|s'| |s' m' e']; cbn;
    try reflexivity;
    try (destruct s; reflexivity); try (destruct s'; reflexivity);
    try (destruct s, s'; reflexivity).
  destruct s, s'; try reflexivity; f_equal;
    rewrite (Z.compare_antisym e e');
    destruct (e ?= e')%Z eqn:He; cbn; try reflexivity.
  - f_equal. symmetry. exact (Pos.compare_cont_antisym m m' Eq).
  - symmetry. exact (Pos.compare_cont_antisym m m' Eq).
Qed.

(** Between two numbers, failing [x <= y] is [y < x]. *)
Lemma fle_false_flt (x y : Py.float) :
  Py.is_nan x = false -> Py.is_nan y = false ->
  Py.fle x y = false -> Py.flt y x = true.
Proof.
  intros Hx Hy. unfold Py.fle, Py.flt, SFleb, SFltb.
  rewrite (SFcompare_antisym x y).
  destruct (SFcompare x y) as [[| |]|] eqn:Hc; cbn; try discriminate;
    try reflexivity.
  destruct x, y; try discriminate; cbn in Hc; discriminate.
Qed.

(** A NaN fails every test [x <= y], on either side. *)
Lemma fle_nan_l (y : Py.float) : Py.fle S754_nan y = false.
Proof. reflexivity. Qed.

Lemma fle_nan_r (x : Py.float) : Py.fle x S754_nan = false.
Proof. now destruct x. Qed.

Lemma passes_order_ascending prev fs :
  Py.is_nan prev = false -> no_nan fs ->
  passes_order prev fs -> ascending prev fs.
Proof.
  revert prev. induction fs as [|[f|] fs IH]; intros prev Hp Hn H; cbn in *;
    try exact H.
  inversion Hn as [|? ? Hf Hn']; subst. destruct H as [H1 H2]. split.
  - now apply fle_false_flt.
  - now apply IH.
Qed.

End FloatOrder.

(** ** Touchstone: what a load leaves untouched *)

Section Frame.

Import Touchstone.

Variable math_exp : Py.float -> result Py.float.

Lemma append_at_length k x l : List.length (append_at k x l) = List.length l.
Proof.
  revert k. induction l as [|s l IH]; intros [|k]; cbn; try reflexivity.
  now rewrite IH.
Qed.

Lemma zipapp_length a b :
  List.length a = List.length b -> List.length (zipapp a b) = List.length b.
Proof.
  revert b. induction a as [|x a IH]; intros [|y b] H; cbn in *;
    try reflexivity; try discriminate.
  f_equal. apply IH. now injection H.
Qed.

Lemma zipapp_append_at a b k x :
  append_at k x (zipapp a b) = zipapp a (append_at k x b).
Proof.
  revert b k. induction a as [|s a IH]; intros [|y b] [|k]; cbn;
    try reflexivity.
  - now rewrite <- app_assoc.
  - now rewrite IH.
Qed.

Lemma zipapp_blank a : zipapp a (map (fun _ => []) a) = a.
Proof.
  induction a as [|x a IH]; cbn; [reflexivity|].
  now rewrite app_nil_r, IH.
Qed.

Lemma graft_blank o : graft o (blank o) = o.
Proof.
  destruct o as [fn sd cm op]. unfold graft, blank. cbn.
  now rewrite zipapp_blank, app_nil_r.
Qed.

Lemma graft_append_point b o k x :
  append_point k x (graft b o) = graft b (append_point k x o).
Proof. unfold append_point, graft. cbn. now rewrite zipapp_append_at. Qed.

Lemma graft_add_comment b o line :
  add_comment line (graft b o) = graft b (add_comment line o).
Proof. unfold add_comment, graft. cbn. now rewrite app_assoc. Qed.

Lemma append_loop_slots fr (n : nat) :
  forall vals k o, (List.length vals <= n)%nat ->
    List.length (sdata (fst (append_loop math_exp fr vals k o)))
    = List.length (sdata o)
    /\ opts (fst (append_loop math_exp fr vals k o)) = opts o.
Proof.
  induction n as [|n IH]; intros [|v rest] k o Hn; cbn [List.length] in Hn;
    try (split; reflexivity); try lia.
  cbn [append_loop]. unfold_monad.
  destruct (String.eqb (Options.format (opts o)) "ri").
  { destruct (k <? List.length (sdata o))%nat; [|split; reflexivity].
    destruct (Py.float_of_str v); [|split; reflexivity].
    destruct rest as [|w rest']; [split; reflexivity|].
    cbn [List.length] in Hn.
    destruct (Py.float_of_str w); [|split; reflexivity].
    destruct (IH rest' (S k) (append_point k (mkDatapoint fr a a0) o)) as [H1 H2];
      [lia|].
    rewrite H1, H2. cbn. now rewrite append_at_length. }
  destruct (String.eqb (Options.format (opts o)) "ma").
  { destruct (Py.float_of_str v); [|split; reflexivity].
    destruct rest as [|w rest']; [split; reflexivity|].
    destruct (Py.float_of_str w); split; reflexivity. }
  destruct (String.eqb (Options.format (opts o)) "db").
  { destruct (Py.float_of_str v); [|split; reflexivity].
    destruct (math_exp _); [|split; reflexivity].
    destruct rest as [|w rest']; [split; reflexivity|].
    destruct (Py.float_of_str w); split; reflexivity. }
  apply IH. lia.
Qed.

Lemma append_line_data_opts fr data o :
  opts (fst (append_line_data math_exp fr data o)) = opts o.
Proof. apply (append_loop_slots fr (List.length data)). lia. Qed.

Lemma append_line_data_slots fr data o :
  List.length (sdata (fst (append_line_data math_exp fr data o)))
  = List.length (sdata o).
Proof. apply (append_loop_slots fr (List.length data)). lia. Qed.

Lemma append_loop_frames b fr (n : nat) :
  forall vals k o, (List.length vals <= n)%nat -> same_slots b o ->
    frames b (append_loop math_exp fr vals k) o.
Proof.
  unfold frames, same_slots.
  induction n as [|n IH]; intros [|v rest] k o Hn Hs; cbn [List.length] in Hn;
    try reflexivity; try lia.
  cbn [append_loop]. unfold_monad.
  replace (opts (graft b o)) with (opts o) by reflexivity.
  destruct (String.eqb (Options.format (opts o)) "ri").
  { cbv beta.
    replace (List.length (sdata (graft b o))) with (List.length (sdata o))
      by (symmetry; now apply zipapp_length).
    destruct (k <? List.length (sdata o))%nat; [|reflexivity].
    destruct (Py.float_of_str v); [|reflexivity].
    destruct rest as [|w rest']; [reflexivity|].
    cbn [List.length] in Hn.
    destruct (Py.float_of_str w); [|reflexivity].
    rewrite graft_append_point. apply IH; [lia|].
    cbn. now rewrite append_at_length. }
  destruct (String.eqb (Options.format (opts o)) "ma").
  { destruct (Py.float_of_str v); [|reflexivity].
    destruct rest as [|w rest']; [reflexivity|].
    destruct (Py.float_of_str w); reflexivity. }
  destruct (String.eqb (Options.format (opts o)) "db").
  { destruct (Py.float_of_str v); [|reflexivity].
    destruct (math_exp _); [|reflexivity].
    destruct rest as [|w rest']; [reflexivity|].
    destruct (Py.float_of_str w); reflexivity. }
  apply IH; [lia|exact Hs].
Qed.

End Frame.

Section Loading.

Import Touchstone.

Variable math_exp : Py.float -> result Py.float.

Lemma append_line_data_frames b fr data o :
  same_slots b o ->
  append_line_data math_exp fr data (graft b o)
  = (graft b (fst (append_line_data math_exp fr data o)),
     snd (append_line_data math_exp fr data o)).
Proof.
  intros Hs. apply (append_loop_frames math_exp b fr (List.length data));
    [lia|exact Hs].
Qed.

Lemma data_lines_frames b file :
  forall prev plen o, same_slots b o ->
    frames b (data_lines math_exp file prev plen) o.
Proof.
  unfold frames.
  induction file as [|line file IH]; intros prev plen o Hs; [reflexivity|].
  cbn [data_lines].
  destruct (String.eqb (Py.strip line) ""); [now apply IH|].
  destruct (Py.split (Py.before "!" line)) as [|d0 data]; [reflexivity|].
  unfold_monad.
  destruct (Py.float_of_str d0) as [x|e]; [|reflexivity].
  replace (opts (graft b o)) with (opts o) by reflexivity.
  destruct (Options.factor (opts o)) as [k|e]; [|reflexivity].
  destruct (Py.fle _ prev); [reflexivity|].
  destruct (check_len line plen (List.length data)) as [plen'|e]; [|reflexivity].
  rewrite append_line_data_frames by exact Hs.
  pose proof (append_line_data_slots math_exp
                (Py.fmul x (Py.float_of_Z k)) data o) as Hl.
  destruct (append_line_data math_exp _ data o) as [o' [[]|e]]; cbn [fst snd] in *;
    [|reflexivity].
  apply IH. unfold same_slots in *. congruence.
Qed.

Lemma parse_comments_frames b fp :
  forall o, frames b (parse_comments fp) o.
Proof.
  unfold frames. induction fp as [|line fp IH]; intros o; [reflexivity|].
  cbn [parse_comments].
  destruct (Py.startswith (Py.strip line) "!"); [|reflexivity].
  unfold_monad. rewrite graft_add_comment. apply IH.
Qed.

Lemma parse_comments_slots fp :
  forall o, sdata (fst (parse_comments fp o)) = sdata o
            /\ opts (fst (parse_comments fp o)) = opts o.
Proof.
  induction fp as [|line fp IH]; intros o; [split; reflexivity|].
  cbn [parse_comments].
  destruct (Py.startswith (Py.strip line) "!"); [|split; reflexivity].
  unfold_monad. apply (IH (add_comment (Py.strip line) o)).
Qed.

Lemma on_opts_frames {A} b (m : M Options.t A) o : frames b (on_opts m) o.
Proof.
  unfold frames, on_opts.
  replace (opts (graft b o)) with (opts o) by reflexivity.
  destruct (m (opts o)) as [op r]. reflexivity.
Qed.

(** A load on a parser that already holds series and comments does what
    it does on the emptied parser, behind what was there. *)
Lemma loads_frames b s o :
  same_slots b o -> frames b (loads math_exp s) o.
Proof.
  intros Hs. unfold frames, loads, bind.
  rewrite parse_comments_frames.
  pose proof (parse_comments_slots (Py.readlines s) o) as [Hsd _].
  destruct (parse_comments (Py.readlines s) o) as [o1 [[line rest]|e]];
    cbn [fst snd] in *; [|reflexivity].
  rewrite on_opts_frames.
  assert (Hs1 : same_slots b (fst (on_opts (Options.parse line) o1))).
  { unfold same_slots, on_opts in *.
    destruct (Options.parse line (opts o1)). cbn. congruence. }
  destruct (on_opts (Options.parse line) o1) as [o2 [[]|e]]; cbn [fst snd] in *;
    [|reflexivity].
  now apply data_lines_frames.
Qed.

Lemma loads_on_blank s o :
  loads math_exp s o
  = (graft o (fst (loads math_exp s (blank o))), snd (loads math_exp s (blank o))).
Proof.
  rewrite <- (graft_blank o) at 1. apply loads_frames.
  unfold same_slots, blank. cbn. now rewrite length_map.
Qed.

End Loading.

(** ** Touchstone: the checks on a data line *)

Section DataLines.

Import Touchstone.

Variable math_exp : Py.float -> result Py.float.

Lemma data_lines_blank line file prev plen o :
  is_blank line = true ->
  data_lines math_exp (line :: file) prev plen o
  = data_lines math_exp file prev plen o.
Proof. unfold is_blank. intros H. cbn [data_lines]. now rewrite H. Qed.

(** One turn of the loop on a line that is not blank and has a frequency:
    the test on the order, then the test on the number of values, then the
    values are appended and the loop goes on with the new [prev_freq] and
    [prev_len]. *)
Lemma data_lines_step line file prev plen o k f :
  is_blank line = false ->
  Options.factor (opts o) = Ok k ->
  line_freq k line = Some f ->
  data_lines math_exp (line :: file) prev plen o
  = if Py.fle f prev
    then (o, Raise (raised TypeError ("Frequeny not ascending: " ++ line)%string))
    else match check_len line plen (line_values line) with
         | Raise e => (o, Raise e)
         | Ok plen' =>
             match append_line_data math_exp f
                     (List.tl (Py.split (Py.before "!" line))) o with
             | (o', Ok _) => data_lines math_exp file f plen' o'
             | (o', Raise e) => (o', Raise e)
             end
         end.
Proof.
  unfold is_blank, line_freq, line_values. intros Hb Hk Hf.
  cbn [data_lines]. rewrite Hb.
  destruct (Py.split (Py.before "!" line)) as [|d0 data]; [discriminate|].
  destruct (Py.float_of_str d0) as [x|e] eqn:Hx; [|discriminate].
  injection Hf as <-. unfold_monad. rewrite Hk. cbn [List.tl].
  destruct (Py.fle _ prev); [reflexivity|].
  destruct (check_len line plen (List.length data)); reflexivity.
Qed.

(** A line whose frequency is not above the one before ends the load with
    the ordering error that names the line; the parser is left as it was
    before the line, and the lines after it are not read. *)
Lemma not_ascending_raises line file prev plen o k f :
  is_blank line = false ->
  Options.factor (opts o) = Ok k ->
  line_freq k line = Some f ->
  Py.fle f prev = true ->
  data_lines math_exp (line :: file) prev plen o
  = (o, Raise (raised TypeError ("Frequeny not ascending: " ++ line)%string)).
Proof.
  intros Hb Hk Hf Hle. rewrite (data_lines_step line file prev plen o k f)
    by assumption. now rewrite Hle.
Qed.

(** When the loop ends without an exception, every line that is not blank
    had a frequency that failed the test [freq <= prev_freq]. *)
Lemma loaded_passes_order k file :
  forall prev plen o o',
    Options.factor (opts o) = Ok k ->
    data_lines math_exp file prev plen o = (o', Ok tt) ->
    passes_order prev (file_freqs k file).
Proof.
  induction file as [|line file IH]; intros prev plen o o' Hk Hrun;
    [exact I|].
  cbn [file_freqs]. destruct (is_blank line) eqn:Hb.
  { rewrite data_lines_blank in Hrun by exact Hb. now apply (IH _ plen o o'). }
  destruct (line_freq k line) as [f|] eqn:Hf.
  - rewrite (data_lines_step line file prev plen o k f) in Hrun by assumption.
    cbn [passes_order]. destruct (Py.fle f prev); [discriminate|].
    split; [reflexivity|].
    destruct (check_len line plen (line_values line)) as [plen'|e];
      [|discriminate].
    pose proof (append_line_data_opts math_exp f
                  (List.tl (Py.split (Py.before "!" line))) o) as Ho.
    destruct (append_line_data math_exp f _ o) as [o1 [[]|e]];
      [|discriminate].
    cbn [fst] in Ho. apply (IH f plen' o1 o'); [now rewrite Ho|exact Hrun].
  - exfalso. revert Hrun. unfold is_blank, line_freq in *.
    cbn [data_lines]. rewrite Hb.
    destruct (Py.split (Py.before "!" line)) as [|d0 data]; [discriminate|].
    unfold_monad. destruct (Py.float_of_str d0); discriminate.
Qed.

(** Without NaN among them, the frequencies of a load that ended without
    an exception are strictly ascending, from [0.0] on. *)
Lemma loaded_ascending k file plen o o' :
  Options.factor (opts o) = Ok k ->
  no_nan (file_freqs k file) ->
  data_lines math_exp file fzero plen o = (o', Ok tt) ->
  ascending fzero (file_freqs k file).
Proof.
  intros Hk Hn Hrun. apply passes_order_ascending; [reflexivity|exact Hn|].
  exact (loaded_passes_order k file fzero plen o o' Hk Hrun).
Qed.

(** The test on the number of values, case by case. *)
Lemma check_len_first_odd line n :
  Nat.odd n = true ->
  check_len line 0 n
  = Raise (raised TypeError ("Data values aren't pairs: " ++ line)%string).
Proof. unfold check_len. cbn. now intros ->. Qed.

Lemma check_len_first_even line n :
  Nat.odd n = false -> check_len line 0 n = Ok n.
Proof. unfold check_len. cbn. now intros ->. Qed.

Lemma check_len_differs line p n :
  p <> 0%nat -> n <> p ->
  check_len line p n
  = Raise (raised TypeError ("Inconsistent number of pairs: " ++ line)%string).
Proof.
  intros Hp Hn. unfold check_len.
  destruct (Nat.eqb_spec p 0); [contradiction|].
  destruct (Nat.eqb_spec n p); [contradiction|reflexivity].
Qed.

Lemma check_len_same line p : p <> 0%nat -> check_len line p p = Ok p.
Proof.
  intros Hp. unfold check_len.
  destruct (Nat.eqb_spec p 0); [contradiction|].
  now rewrite Nat.eqb_refl.
Qed.

(** A line without values leaves [prev_len] at 0, so the count is fixed
    by the first line that has values. *)
Lemma check_len_no_values line : check_len line 0 0 = Ok 0%nat.
Proof. reflexivity. Qed.

End DataLines.

(** ** Touchstone: loading *)

Section Loads.

Import Touchstone.

Variable math_exp : Py.float -> result Py.float.

(** C5, where the code departs from the claim.  The claim: every line
    that is accepted has a frequency strictly above the one accepted
    before it, and a line that has not fails with the ordering error.  The
    code: it raises when [freq <= prev_freq], which is false for a NaN on
    either side; the frequency [nan] is accepted as the first line, and
    after a line at [nan] a line at 1 GHz is accepted behind one at 5 GHz.
    For frequencies that are numbers the claim holds
    ([not_ascending_raises], [loaded_ascending]). *)
Theorem nan_frequency_accepted :
  loads math_exp ("# RI" ++ LF ++ "nan 1 2" ++ LF)%string (init "f")
  = (mk "f" [[mkDatapoint S754_nan (Py.float_of_Z 1) (Py.float_of_Z 2)]; []; []; []]
        [] (Options.mk "ghz" "s" "ri" 50),
     Ok tt)
  /\ Py.flt fzero S754_nan = false
  /\ loads math_exp ("# RI" ++ LF ++ "5 1 2" ++ LF ++ "nan 3 4" ++ LF
                     ++ "1 5 6" ++ LF)%string (init "f")
     = (mk "f" [[mkDatapoint (Py.float_of_Z (5 * 10 ^ 9)) (Py.float_of_Z 1) (Py.float_of_Z 2);
                 mkDatapoint S754_nan (Py.float_of_Z 3) (Py.float_of_Z 4);
                 mkDatapoint (Py.float_of_Z (10 ^ 9)) (Py.float_of_Z 5) (Py.float_of_Z 6)];
                []; []; []]
           [] (Options.mk "ghz" "s" "ri" 50),
        Ok tt)
  /\ Py.flt (Py.float_of_Z (5 * 10 ^ 9)) (Py.float_of_Z (10 ^ 9)) = false.
Proof. repeat split. Qed.

(** C6, where the code departs from the claim.  The claim: the number of
    values of the first data line is the count every later line must have;
    an odd first count is the pairing error and a later line with another
    count is the consistency error.  The code: [prev_len == 0] stands for
    "no line seen yet", so after a first line that has a frequency and no
    value the next line is treated as the first: with two values it is
    accepted, with three it fails with the pairing error.  After a first
    line that has values the claim holds ([check_len_differs],
    [check_len_same]). *)
Theorem first_line_without_values :
  loads math_exp ("# RI" ++ LF ++ "1" ++ LF ++ "2 1 2" ++ LF)%string (init "f")
  = (mk "f" [[mkDatapoint (Py.float_of_Z (2 * 10 ^ 9)) (Py.float_of_Z 1) (Py.float_of_Z 2)];
             []; []; []]
        [] (Options.mk "ghz" "s" "ri" 50),
     Ok tt)
  /\ loads math_exp ("# RI" ++ LF ++ "1" ++ LF ++ "2 1 2 3" ++ LF)%string (init "f")
     = (mk "f" [[]; []; []; []] [] (Options.mk "ghz" "s" "ri" 50),
        Raise (raised TypeError
                 ("Data values aren't pairs: " ++ "2 1 2 3" ++ LF)%string)).
Proof. repeat split. Qed.

(** The bodies the description of the format gives as wrong. *)
Example equal_frequencies_raise :
  loads math_exp ("# RI" ++ LF ++ "1e9 1 2" ++ LF ++ "1e9 3 4" ++ LF)%string
    (Touchstone.mk "f" [[]; []; []; []] [] (Options.mk "hz" "s" "ri" 50))
  = (Touchstone.mk "f" [[mkDatapoint (Py.float_of_Z (10 ^ 9)) (Py.float_of_Z 1)
                           (Py.float_of_Z 2)]; []; []; []]
       [] (Options.mk "hz" "s" "ri" 50),
     Raise (raised TypeError ("Frequeny not ascending: " ++ "1e9 3 4" ++ LF)%string)).
Proof. reflexivity. Qed.

Example zero_hertz_first_raises :
  loads math_exp ("# RI" ++ LF ++ "0 1 2" ++ LF)%string (init "f")
  = (mk "f" [[]; []; []; []] [] (Options.mk "ghz" "s" "ri" 50),
     Raise (raised TypeError ("Frequeny not ascending: " ++ "0 1 2" ++ LF)%string)).
Proof. reflexivity. Qed.

Example three_values_raise :
  loads math_exp ("# RI" ++ LF ++ "1 1 2 3" ++ LF)%string (init "f")
  = (mk "f" [[]; []; []; []] [] (Options.mk "ghz" "s" "ri" 50),
     Raise (raised TypeError ("Data values aren't pairs: " ++ "1 1 2 3" ++ LF)%string)).
Proof. reflexivity. Qed.

Example four_then_two_values_raise :
  loads math_exp ("# RI" ++ LF ++ "1 1 2 3 4" ++ LF ++ "2 5 6" ++ LF)%string
    (init "f")
  = (mk "f" [[mkDatapoint (Py.float_of_Z (10 ^ 9)) (Py.float_of_Z 1) (Py.float_of_Z 2)];
             [mkDatapoint (Py.float_of_Z (10 ^ 9)) (Py.float_of_Z 3) (Py.float_of_Z 4)];
             []; []]
       [] (Options.mk "ghz" "s" "ri" 50),
     Raise (raised TypeError ("Inconsistent number of pairs: " ++ "2 5 6" ++ LF)%string)).
Proof. reflexivity. Qed.

Example unknown_unit_raises :
  Options.parse (Some "# XHZ S MA R 50") Options.default
  = (Options.default,
     Raise (raised TypeError ("Illegial option line: " ++ "# XHZ S MA R 50")%string)).
Proof. reflexivity. Qed.

Lemma data_lines_slots file :
  forall prev plen o,
    List.length (sdata (fst (data_lines math_exp file prev plen o)))
    = List.length (sdata o).
Proof.
  induction file as [|line file IH]; intros prev plen o; [reflexivity|].
  cbn [data_lines].
  destruct (String.eqb (Py.strip line) ""); [apply IH|].
  destruct (Py.split (Py.before "!" line)) as [|d0 data]; [reflexivity|].
  unfold_monad.
  destruct (Py.float_of_str d0) as [x|e]; [|reflexivity].
  destruct (Options.factor (opts o)) as [k|e]; [|reflexivity].
  destruct (Py.fle _ prev); [reflexivity|].
  destruct (check_len line plen (List.length data)) as [plen'|e]; [|reflexivity].
  pose proof (append_line_data_slots math_exp
                (Py.fmul x (Py.float_of_Z k)) data o) as Hl.
  destruct (append_line_data math_exp _ data o) as [o' [[]|e]]; cbn [fst] in *;
    [|exact Hl].
  now rewrite IH.
Qed.

Lemma loads_slots s o :
  List.length (sdata (fst (loads math_exp s o))) = List.length (sdata o).
Proof.
  unfold loads, bind.
  pose proof (parse_comments_slots (Py.readlines s) o) as [Hsd _].
  destruct (parse_comments (Py.readlines s) o) as [o1 [[line rest]|e]];
    cbn [fst snd] in *; [|now rewrite Hsd].
  unfold on_opts. destruct (Options.parse line (opts o1)) as [op [[]|e]];
    cbn [fst]; [|now rewrite Hsd].
  rewrite data_lines_slots. cbn. now rewrite Hsd.
Qed.

Lemma nth_zipapp a b i :
  List.length a = List.length b ->
  nth i (zipapp a b) [] = nth i a [] ++ nth i b [].
Proof.
  revert b i. induction a as [|x a IH]; intros [|y b] [|i] H; cbn in *;
    try reflexivity; try discriminate.
  apply IH. now injection H.
Qed.

(** What a load adds: the series of the parser after the load are, slot
    by slot, its series before the load followed by the series the same
    load gives on the emptied parser; likewise for the comments. *)
Lemma loads_appends s o :
  (forall i, nth i (sdata (fst (loads math_exp s o))) []
             = nth i (sdata o) []
               ++ nth i (sdata (fst (loads math_exp s (blank o)))) [])
  /\ comments (fst (loads math_exp s o))
     = comments o ++ comments (fst (loads math_exp s (blank o)))
  /\ snd (loads math_exp s o) = snd (loads math_exp s (blank o)).
Proof.
  rewrite (loads_on_blank math_exp s o). cbn [fst snd graft sdata comments].
  repeat split. intros i. apply nth_zipapp.
  rewrite loads_slots. unfold blank. cbn. now rewrite length_map.
Qed.

(** Two loads in a row on the same parser keep what was there: each
    series holds what it held before, then what the first load adds, then
    what the second load adds, and the comments likewise; what a load adds
    is what it leaves on the emptied parser with the options the parser
    has at that call.  It holds for every body, whether or not the load
    ends with an exception, so no load removes or changes what the series
    and the comments held.  It does not say that a load adds anything. *)
Theorem loads_twice_appends s1 s2 o :
  let o1 := fst (loads math_exp s1 o) in
  let o2 := fst (loads math_exp s2 o1) in
  let d1 := fst (loads math_exp s1 (blank o)) in
  let d2 := fst (loads math_exp s2 (blank o1)) in
  (forall i, nth i (sdata o1) [] = nth i (sdata o) [] ++ nth i (sdata d1) [])
  /\ comments o1 = comments o ++ comments d1
  /\ (forall i, nth i (sdata o2) []
                = (nth i (sdata o) [] ++ nth i (sdata d1) []) ++ nth i (sdata d2) [])
  /\ comments o2 = (comments o ++ comments d1) ++ comments d2.
Proof.
  intros o1 o2 d1 d2.
  destruct (loads_appends s1 o) as (H1 & C1 & _).
  destruct (loads_appends s2 o1) as (H2 & C2 & _).
  fold o1 in H1, C1. fold d1 in H1, C1. fold o2 in H2, C2. fold d2 in H2, C2.
  repeat split.
  - exact H1.
  - exact C1.
  - intros i. now rewrite H2, H1.
  - now rewrite C2, C1.
Qed.

(** Two bodies in the format [ri] loaded one after the other. *)
Example loads_twice_example :
  let o1 := fst (loads math_exp ("! a" ++ LF ++ "# RI" ++ LF ++ "1 1 2" ++ LF
                                 ++ "2 3 4" ++ LF)%string (init "f")) in
  loads math_exp ("! b" ++ LF ++ "#" ++ LF ++ "1 5 6 7 8" ++ LF)%string o1
  = (mk "f"
        [[mkDatapoint (Py.float_of_Z (10 ^ 9)) (Py.float_of_Z 1) (Py.float_of_Z 2);
          mkDatapoint (Py.float_of_Z (2 * 10 ^ 9)) (Py.float_of_Z 3) (Py.float_of_Z 4);
          mkDatapoint (Py.float_of_Z (10 ^ 9)) (Py.float_of_Z 5) (Py.float_of_Z 6)];
         [mkDatapoint (Py.float_of_Z (10 ^ 9)) (Py.float_of_Z 7) (Py.float_of_Z 8)];
         []; []]
        ["! a"; "! b"] (Options.mk "ghz" "s" "ri" 50),
     Ok tt).
Proof. reflexivity. Qed.

Lemma parse_comments_all fp :
  forall o,
    Forall (fun line => Py.startswith (Py.strip line) "!" = true) fp ->
    parse_comments fp o
    = (mk (filename o) (sdata o) (comments o ++ map Py.strip fp) (opts o),
       Ok (None, [])).
Proof.
  induction fp as [|line fp IH]; intros o H.
  - cbn. rewrite app_nil_r. now destruct o.
  - inversion H as [|? ? Hl Hfp]; subst. cbn [parse_comments map].
    rewrite Hl. unfold_monad. rewrite (IH _ Hfp). cbn.
    now rewrite <- app_assoc.
Qed.

(** C9.  When every line of the text starts with [!] once stripped (the
    empty text has no line), [_parse_comments] stores all the lines as
    comments and returns [None], and [loads] ends with the
    [AttributeError] of [None.startswith] in [Options.parse], not with a
    [TypeError]; the comments stay stored, the series and the options are
    as before. *)
Theorem only_comments_raises s o :
  Forall (fun line => Py.startswith (Py.strip line) "!" = true) (Py.readlines s) ->
  let o' := mk (filename o) (sdata o)
               (comments o ++ map Py.strip (Py.readlines s)) (opts o) in
  parse_comments (Py.readlines s) o = (o', Ok (None, []))
  /\ Options.parse None (opts o') = (opts o', Raise (builtin AttributeError))
  /\ loads math_exp s o = (o', Raise (builtin AttributeError)).
Proof.
  intros H o'. pose proof (parse_comments_all _ o H) as Hc. fold o' in Hc.
  repeat split; [exact Hc|].
  unfold loads, bind. rewrite Hc. reflexivity.
Qed.

End Loads.

Lemma only_comments_raises_witness :
  Forall (fun line => Py.startswith (Py.strip line) "!" = true)
         (Py.readlines ("! first" ++ LF ++ "  ! second" ++ LF)%string)
  /\ Touchstone.loads (fun _ => Raise (builtin OverflowError))
       ("! first" ++ LF ++ "  ! second" ++ LF)%string (Touchstone.init "f")
     = (Touchstone.mk "f" [[]; []; []; []] ["! first"; "! second"] Options.default,
        Raise (builtin AttributeError)).
Proof.
  assert (H : Forall (fun line => Py.startswith (Py.strip line) "!" = true)
                (Py.readlines ("! first" ++ LF ++ "  ! second" ++ LF)%string)).
  { repeat constructor. }
  split; [exact H|].
  exact (proj2 (proj2 (only_comments_raises
                         (fun _ => Raise (builtin OverflowError)) _
                         (Touchstone.init "f") H))).
Defined.

(** ** Further properties of Options *)

Section OptionsMore.

Import Options.

Lemma lower_char_idem c : Py.lower_char (Py.lower_char c) = Py.lower_char c.
Proof. destruct c as [[] [] [] [] [] [] [] []]; reflexivity. Qed.

Lemma lower_idem s : Py.lower (Py.lower s) = Py.lower s.
Proof.
  induction s as [|c s IH]; [reflexivity|].
  cbn. f_equal; [apply lower_char_idem|exact IH].
Qed.

Lemma lookup_in_table u k :
  lookup u UNIT_TO_FACTOR = Ok k -> In k [10 ^ 9; 10 ^ 6; 10 ^ 3; 1].
Proof.
  unfold UNIT_TO_FACTOR. cbn [lookup].
  destruct (String.eqb u "ghz"); [intros [= <-]; cbn; auto|].
  destruct (String.eqb u "mhz"); [intros [= <-]; cbn; auto|].
  destruct (String.eqb u "khz"); [intros [= <-]; cbn; auto|].
  destruct (String.eqb u "hz"); [intros [= <-]; cbn; auto|discriminate].
Qed.

(** X1.  An object [__init__] returns holds the lower-cased arguments, its
    unit and format are among the valid ones, its parameter is a piece of
    ["syzgh"], its resistance is positive, and its [factor] is one of
    10^9, 10^6, 10^3, 1 (no [KeyError]). *)
Theorem init_valid u p f r o :
  init u p f r = Ok o ->
  o = mk (Py.lower u) (Py.lower p) (Py.lower f) r
  /\ valid_enums o
  /\ 0 < resistance o
  /\ exists k, factor o = Ok k /\ In k [10 ^ 9; 10 ^ 6; 10 ^ 3; 1].
Proof.
  unfold init.
  destruct (Py.mem (Py.lower u) VALID_UNITS) eqn:Hu; [|discriminate].
  destruct (Py.contains VALID_PARAMETERS (Py.lower p)) eqn:Hp; [|discriminate].
  destruct (Py.mem (Py.lower f) VALID_FORMATS) eqn:Hf; [|discriminate].
  destruct (0 <? r)%Z eqn:Hr; [|discriminate].
  cbn [negb]. intros [= <-]. split; [reflexivity|]. split; [|split].
  - repeat split; assumption.
  - cbn. now apply Z.ltb_lt.
  - destruct (lookup_valid_unit _ Hu) as [k Hk]. exists k. split; [exact Hk|].
    now apply (lookup_in_table (Py.lower u)).
Qed.

(** X2.  [__init__] does not look at the case of its arguments: it gives
    for the lower-cased arguments what it gives for the arguments. *)
Theorem init_ignores_case u p f r :
  init (Py.lower u) (Py.lower p) (Py.lower f) r = init u p f r.
Proof. unfold init. now rewrite !lower_idem. Qed.

(** X3.  [parse] never changes the unit, and so never the factor, of the
    object it is called on, whatever the line and whether it returns or
    raises. *)
Theorem parse_keeps_factor line o :
  unit (fst (parse line o)) = unit o
  /\ factor (fst (parse line o)) = factor o.
Proof.
  pose proof (parse_unit line o) as H. split; [exact H|].
  now apply factor_depends_on_unit.
Qed.

Lemma parse_params_enums_bounded line (n : nat) :
  forall params f o, (List.length params <= n)%nat -> valid_enums o ->
    valid_enums (fst (parse_params line params f o)).
Proof.
  induction n as [|n IH]; intros [|p rest] f o Hn Hv; try exact Hv.
  { cbn in Hn. lia. }
  cbn [List.length] in Hn. cbn [parse_params].
  destruct (Py.mem p VALID_UNITS && negb (pfact f)).
  { unfold bind, lift, set_factor, throw.
    destruct (lookup p UNIT_TO_FACTOR); exact Hv. }
  destruct (Py.contains VALID_PARAMETERS p && negb (pparam f)) eqn:Hp.
  { unfold bind, modify. apply IH; [lia|].
    apply andb_prop in Hp. destruct Hp as [Hp _].
    destruct Hv as (H1 & _ & H3). repeat split; assumption. }
  destruct (Py.mem p VALID_FORMATS && negb (pformat f)) eqn:Hf.
  { unfold bind, modify. apply IH; [lia|].
    apply andb_prop in Hf. destruct Hf as [Hf _].
    destruct Hv as (H1 & H2 & _). repeat split; assumption. }
  destruct (String.eqb p "r" && negb (presist f)); [|exact Hv].
  destruct rest as [|k rest']; [exact Hv|].
  cbn [List.length] in Hn. unfold bind, lift, modify.
  destruct (Py.int k); [|exact Hv].
  apply IH; [lia|exact Hv].
Qed.

(** X4.  [parse] keeps the enumerations valid: on an object whose unit and
    format are valid and whose parameter is a piece of ["syzgh"], they
    still are after the call, whatever the line and whether it returns or
    raises. *)
Theorem parse_keeps_enums line o :
  valid_enums o -> valid_enums (fst (parse line o)).
Proof.
  intros Hv. destruct line as [line|]; [|exact Hv]. unfold parse.
  destruct (negb (Py.startswith line "#")); [exact Hv|].
  now apply (parse_params_enums_bounded line
               (List.length (Py.split (Py.lower (Py.tail line))))).
Qed.

Lemma apply_no_update o : apply_update no_update o = o.
Proof. now destruct o. Qed.

Lemma parse_params_update_bounded line (n : nat) :
  forall params f, (List.length params <= n)%nat ->
    exists u r, forall o, parse_params line params f o = (apply_update u o, r).
Proof.
  induction n as [|n IH]; intros [|p rest] f Hn.
  - exists no_update, (Ok tt). intros o. now rewrite apply_no_update.
  - cbn in Hn. lia.
  - exists no_update, (Ok tt). intros o. now rewrite apply_no_update.
  - cbn [List.length] in Hn. cbn [parse_params].
    destruct (Py.mem p VALID_UNITS && negb (pfact f)).
    { destruct (lookup p UNIT_TO_FACTOR) as [v|e].
      - exists no_update, (Raise (builtin AttributeError)). intros o.
        now rewrite apply_no_update.
      - exists no_update, (Raise e). intros o. now rewrite apply_no_update. }
    destruct (Py.contains VALID_PARAMETERS p && negb (pparam f)).
    { destruct (IH rest (Flags (pfact f) true (pformat f) (presist f)))
        as (u & r & H); [lia|].
      exists (Update (Some (pick (new_parameter u) p)) (new_format u)
                (new_resistance u)), r.
      intros o. unfold bind, modify. rewrite H. reflexivity. }
    destruct (Py.mem p VALID_FORMATS && negb (pformat f)).
    { destruct (IH rest (Flags (pfact f) (pparam f) true (presist f)))
        as (u & r & H); [lia|].
      exists (Update (new_parameter u) (Some (pick (new_format u) p))
                (new_resistance u)), r.
      intros o. unfold bind, modify. rewrite H. reflexivity. }
    destruct (String.eqb p "r" && negb (presist f)).
    2:{ eexists no_update, _. intros o. now rewrite apply_no_update. }
    destruct rest as [|k rest'].
    { exists no_update, (Raise (builtin StopIteration)). intros o.
      now rewrite apply_no_update. }
    cbn [List.length] in Hn. destruct (Py.int k) as [z|e].
    + destruct (IH rest' f) as (u & r & H); [lia|].
      exists (Update (new_parameter u) (new_format u)
                (Some (pick (new_resistance u) z))), r.
      intros o. unfold bind, lift, modify. rewrite H. reflexivity.
    + exists no_update, (Raise e). intros o. now rewrite apply_no_update.
Qed.

(** What [parse] does depends on the line alone: it overwrites a fixed
    choice of attributes with fixed values and ends in a fixed way. *)
Lemma parse_update line :
  exists u r, forall o, parse line o = (apply_update u o, r).
Proof.
  destruct line as [line|].
  - unfold parse. destruct (negb (Py.startswith line "#")).
    + eexists no_update, _. intros o. now rewrite apply_no_update.
    + apply (parse_params_update_bounded line
               (List.length (Py.split (Py.lower (Py.tail line))))). lia.
  - eexists no_update, _. intros o. cbn. now rewrite apply_no_update.
Qed.

Lemma apply_update_twice u o :
  apply_update u (apply_update u o) = apply_update u o.
Proof. destruct u as [[p|] [f|] [r|]]; reflexivity. Qed.

(** X5.  Reading the same options line a second time changes nothing: the
    second call leaves the object as the first call left it and ends the
    same way.  The way a call ends is the same on every object. *)
Theorem parse_twice line o :
  parse line (fst (parse line o)) = parse line o
  /\ forall o', snd (parse line o') = snd (parse line o).
Proof.
  destruct (parse_update line) as (u & r & H). split.
  - rewrite !H. cbn [fst]. now rewrite apply_update_twice.
  - intros o'. now rewrite !H.
Qed.

End OptionsMore.

Lemma init_valid_witness :
  Options.init "GHZ" "S" "ma" 50 = Ok Options.default
  /\ valid_enums Options.default.
Proof.
  assert (H : Options.init "GHZ" "S" "ma" 50 = Ok Options.default)
    by reflexivity.
  split; [exact H|].
  exact (proj1 (proj2 (init_valid "GHZ" "S" "ma" 50 Options.default H))).
Defined.

Lemma parse_keeps_enums_witness :
  valid_enums Options.default
  /\ valid_enums (fst (Options.parse (Some "# db zg R 75 bogus") Options.default)).
Proof.
  assert (H : valid_enums Options.default) by (repeat split).
  split; [exact H|].
  exact (parse_keeps_enums (Some "# db zg R 75 bogus") Options.default H).
Defined.

(** ** Integers written by [str] and read by [int] *)

Section IntRoundTrip.

Lemma plain_lower s : plain s = true -> Py.lower s = s.
Proof.
  induction s as [|c s IH]; [reflexivity|]. cbn.
  intros H. apply andb_prop in H. destruct H as [H Hs].
  apply andb_prop in H. destruct H as [_ Hc].
  apply Ascii.eqb_eq in Hc. now rewrite Hc, IH.
Qed.

Lemma plain_lstrip s : plain s = true -> Py.lstrip s = s.
Proof.
  destruct s as [|c s]; [reflexivity|]. cbn.
  now destruct (Py.isspace c).
Qed.

Lemma plain_rstrip s : plain s = true -> Py.rstrip s = s.
Proof.
  induction s as [|c s IH]; [reflexivity|]. cbn [plain Py.rstrip].
  intros H. apply andb_prop in H. destruct H as [H Hs].
  apply andb_prop in H. destruct H as [Hc _].
  rewrite (IH Hs). destruct s; [|reflexivity].
  now destruct (Py.isspace c).
Qed.

Lemma plain_strip s : plain s = true -> Py.strip s = s.
Proof.
  intros H. unfold Py.strip. rewrite plain_lstrip by exact H.
  now apply plain_rstrip.
Qed.

Lemma plain_split s : plain s = true -> s <> EmptyString -> Py.split s = [s].
Proof.
  induction s as [|c s IH]; [congruence|]. cbn [plain Py.split].
  intros H _. apply andb_prop in H. destruct H as [H Hs].
  apply andb_prop in H. destruct H as [Hc _].
  destruct (Py.isspace c); [discriminate|].
  destruct s as [|c' s']; [reflexivity|].
  rewrite (IH Hs) by discriminate.
  cbn [plain] in Hs. destruct (Py.isspace c'); [discriminate|reflexivity].
Qed.

Lemma plain_uint d : plain (NilEmpty.string_of_uint d) = true.
Proof. induction d; cbn [NilEmpty.string_of_uint plain]; try rewrite IHd; reflexivity. Qed.

Lemma plain_str_of_int z : plain (Py.str_of_int z) = true.
Proof.
  unfold Py.str_of_int. destruct (Z.to_int z) as [d|d];
    cbn [NilZero.string_of_int plain]; unfold NilZero.string_of_uint;
    destruct d; try reflexivity; apply (plain_uint (_ d)).
Qed.

Lemma str_of_int_not_empty z : Py.str_of_int z <> EmptyString.
Proof.
  unfold Py.str_of_int. destruct (Z.to_int z) as [d|d];
    cbn [NilZero.string_of_int]; [|discriminate].
  destruct d; discriminate.
Qed.

Lemma isspace_num_isspace c : Py.isspace c = false -> Py.isspace_num c = false.
Proof.
  destruct c as [[] [] [] [] [] [] [] []]; intros H; try reflexivity;
    discriminate H.
Qed.

Lemma plain_num_lstrip s : plain s = true -> Py.num_lstrip s = s.
Proof.
  destruct s as [|c s]; [reflexivity|]. cbn [plain Py.num_lstrip].
  intros H. apply andb_prop in H. destruct H as [H _].
  apply andb_prop in H. destruct H as [Hc _].
  rewrite isspace_num_isspace; [reflexivity|].
  now destruct (Py.isspace c).
Qed.

Lemma plain_num_rstrip s : plain s = true -> Py.num_rstrip s = s.
Proof.
  induction s as [|c s IH]; [reflexivity|]. cbn [plain Py.num_rstrip].
  intros H. apply andb_prop in H. destruct H as [H Hs].
  apply andb_prop in H. destruct H as [Hc _].
  rewrite (IH Hs). destruct s; [|reflexivity].
  rewrite isspace_num_isspace; [reflexivity|].
  now destruct (Py.isspace c).
Qed.

Lemma plain_num_strip s : plain s = true -> Py.num_strip s = s.
Proof.
  intros H. unfold Py.num_strip. rewrite plain_num_lstrip by exact H.
  now apply plain_num_rstrip.
Qed.

Lemma digitpart_uint d :
  forall acc n,
    Py.digitpart (NilEmpty.string_of_uint d) acc n true
    = Some (uint_val d acc, (n + String.length (NilEmpty.string_of_uint d))%nat).
Proof.
  induction d; intros acc n;
    cbn [NilEmpty.string_of_uint uint_val String.length];
    [cbn; now rewrite Nat.add_0_r|..];
    cbn [Py.digitpart]; match goal with
    | |- context [Py.is_digit ?c] =>
        replace (Py.is_digit c) with true by reflexivity
    end; cbv iota; rewrite IHd; apply f_equal, f_equal2;
    (reflexivity || lia).
Qed.

Lemma digitpart_uint_start d :
  d <> Decimal.Nil ->
  Py.digitpart (NilEmpty.string_of_uint d) 0 0 false
  = Some (uint_val d 0, String.length (NilEmpty.string_of_uint d)).
Proof.
  destruct d; [congruence|..]; intros _;
    cbn [NilEmpty.string_of_uint uint_val Py.digitpart String.length];
    match goal with
    | |- context [Py.is_digit ?c] =>
        replace (Py.is_digit c) with true by reflexivity
    end; cbv iota; rewrite digitpart_uint; reflexivity.
Qed.

Lemma uint_val_pos d :
  forall acc, uint_val d (Zpos acc) = Zpos (Pos.of_uint_acc d acc).
Proof.
  induction d; intros acc; cbn [uint_val Pos.of_uint_acc];
    [reflexivity|..]; rewrite <- IHd; f_equal; lia.
Qed.

Lemma uint_val_zero d : uint_val d 0 = Z.of_uint d.
Proof.
  unfold Z.of_uint.
  induction d; cbn [uint_val Pos.of_uint]; try reflexivity;
    try exact IHd; apply uint_val_pos.
Qed.

Lemma int_of_uint_string d :
  Py.digitpart (NilZero.string_of_uint d) 0 0 false
  = Some (Z.of_uint d, String.length (NilZero.string_of_uint d)).
Proof.
  destruct (Decimal.uint_eq_dec d Decimal.Nil) as [->|Hd].
  - reflexivity.
  - rewrite <- uint_val_zero.
    replace (NilZero.string_of_uint d) with (NilEmpty.string_of_uint d)
      by now destruct d.
    now apply digitpart_uint_start.
Qed.

Lemma sign_uint_string d :
  Py.sign (NilZero.string_of_uint d) = (false, NilZero.string_of_uint d).
Proof. now destruct d. Qed.

Lemma to_int_abs z :
  exists d, Z.to_int (Z.abs z) = Decimal.Pos d
            /\ (Z.to_int z = Decimal.Pos d \/ Z.to_int z = Decimal.Neg d).
Proof. destruct z; eexists; split; try reflexivity; [left|left|right]; reflexivity. Qed.

(** [int(str(z))] is [z] for an integer within the limit of digits. *)
Lemma int_str_of_int z :
  (String.length (Py.str_of_int (Z.abs z)) <= Py.max_str_digits)%nat ->
  Py.int (Py.str_of_int z) = Ok z.
Proof.
  intros Hlen. unfold Py.int. rewrite plain_num_strip by apply plain_str_of_int.
  unfold Py.str_of_int in *.
  pose proof (DecimalZ.of_to z) as Hz.
  destruct (to_int_abs z) as (d & Ha & [Hd|Hd]); rewrite Ha in Hlen;
    rewrite Hd in *; cbn [NilZero.string_of_int Z.of_int] in *.
  - rewrite sign_uint_string, int_of_uint_string.
    destruct (Nat.ltb_spec Py.max_str_digits
                (String.length (NilZero.string_of_uint d))); [lia|].
    now rewrite Hz.
  - cbn [Py.sign]. rewrite int_of_uint_string.
    destruct (Nat.ltb_spec Py.max_str_digits
                (String.length (NilZero.string_of_uint d))); [lia|].
    now rewrite Hz.
Qed.

(** X6.  [parse] takes every integer it can read as a resistance: for
    every [z], positive or not, of at most 4300 decimal digits (more
    digits make [str] and [int] raise), the line [# R z], with [z] written
    as [str] writes it, is read without an exception and sets the
    resistance to [z].  [parse] does not ask for the positive resistance
    [__init__] asserts. *)
Theorem parse_reads_any_resistance z o :
  (String.length (Py.str_of_int (Z.abs z)) <= Py.max_str_digits)%nat ->
  Options.parse (Some ("# R " ++ Py.str_of_int z)%string) o
  = (Options.set_resistance z o, Ok tt).
Proof.
  intros Hlen. unfold Options.parse.
  change ("# R " ++ Py.str_of_int z)%string
    with (String "#" (String " " (String "R" (String " " (Py.str_of_int z))))).
  cbn [Py.startswith String.prefix Py.tail Py.lower Py.smap].
  replace (ascii_dec "#" "#") with (@left ("#" = "#")%char ("#" <> "#")%char eq_refl)
    by reflexivity.
  cbv iota. cbn [negb]. fold Py.lower.
  rewrite plain_lower by apply plain_str_of_int.
  change (Py.lower_char " ") with " "%char.
  change (Py.lower_char "R") with "r"%char.
  cbn [Py.split]. replace (Py.isspace " ") with true by reflexivity.
  replace (Py.isspace "r") with false by reflexivity. cbv iota.
  rewrite plain_split
    by (apply plain_str_of_int || apply str_of_int_not_empty).
  rewrite (parse_params_r _ _ z); [reflexivity|reflexivity|].
  now apply int_str_of_int.
Qed.

(** Above the limit of digits [int] raises. *)
Example int_above_digit_limit :
  Py.int (String.concat "" (repeat "1" 4301)) = Raise (builtin ValueError)
  /\ Py.int (String.concat "" (repeat "1" 4300)) = Ok ((10 ^ 4300 - 1) / 9).
Proof. split; vm_compute; reflexivity. Qed.

End IntRoundTrip.

(** ** Further properties of Touchstone: the values of a line *)

Section Values.

Import Touchstone.

Variable math_exp : Py.float -> result Py.float.

Lemma with_sdata_same o : with_sdata (sdata o) o = o.
Proof. now destruct o. Qed.

Lemma add_points_length fr ps :
  forall k sd, List.length (add_points fr k ps sd) = List.length sd.
Proof.
  induction ps as [|p ps IH]; intros k sd; [reflexivity|].
  cbn [add_points]. now rewrite IH, append_at_length.
Qed.

Lemma nth_append_at k x sd i :
  nth i (append_at k x sd) []
  = nth i sd [] ++ (if (i =? k)%nat && (k <? List.length sd)%nat then [x] else []).
Proof.
  revert k i. induction sd as [|s sd IH]; intros k i.
  - replace (k <? List.length (@nil (list Datapoint)))%nat with false
      by (symmetry; apply Nat.ltb_ge; cbn; lia).
    rewrite andb_false_r. destruct k, i; reflexivity.
  - destruct k as [|k], i as [|i]; cbn [append_at nth].
    + reflexivity.
    + cbn. now rewrite app_nil_r.
    + cbn. now rewrite app_nil_r.
    + rewrite IH. reflexivity.
Qed.

Lemma nth_add_points fr ps :
  forall k sd i, (k + List.length ps <= List.length sd)%nat ->
    nth i (add_points fr k ps sd) []
    = nth i sd [] ++ (if (k <=? i)%nat
                      then match nth_error ps (i - k) with
                           | Some p => [point_of fr p]
                           | None => []
                           end
                      else []).
Proof.
  induction ps as [|p ps IH]; intros k sd i Hk; cbn [add_points List.length] in *.
  - destruct (k <=? i)%nat; [|now rewrite app_nil_r].
    destruct (i - k)%nat; now rewrite app_nil_r.
  - rewrite IH by (rewrite append_at_length; lia).
    rewrite nth_append_at.
    destruct (Nat.eqb_spec i k) as [->|Hik].
    + replace (k <? List.length sd)%nat with true
        by (symmetry; apply Nat.ltb_lt; lia).
      replace (S k <=? k)%nat with false by (symmetry; apply Nat.leb_gt; lia).
      rewrite Nat.leb_refl, Nat.sub_diag. cbn. now rewrite app_nil_r.
    + cbn [andb]. rewrite app_nil_r.
      destruct (Nat.leb_spec (S k) i) as [H|H].
      * replace (k <=? i)%nat with true by (symmetry; apply Nat.leb_le; lia).
        replace (i - k)%nat with (S (i - S k)) by lia. reflexivity.
      * replace (k <=? i)%nat with false by (symmetry; apply Nat.leb_gt; lia).
        reflexivity.
Qed.

(** With a format other than [ri] the loop of [_append_line_data] leaves
    the parser as it is. *)
Lemma append_loop_not_ri fr (n : nat) :
  forall vals k o, (List.length vals <= n)%nat ->
    String.eqb (Options.format (opts o)) "ri" = false ->
    fst (append_loop math_exp fr vals k o) = o.
Proof.
  induction n as [|n IH]; intros [|v rest] k o Hn Hf; cbn [List.length] in Hn;
    try reflexivity; try lia.
  cbn [append_loop]. unfold_monad. rewrite Hf.
  destruct (String.eqb (Options.format (opts o)) "ma").
  { destruct (Py.float_of_str v); [|reflexivity].
    destruct rest as [|w rest']; [reflexivity|].
    destruct (Py.float_of_str w); reflexivity. }
  destruct (String.eqb (Options.format (opts o)) "db").
  { destruct (Py.float_of_str v); [|reflexivity].
    destruct (math_exp _); [|reflexivity].
    destruct rest as [|w rest']; [reflexivity|].
    destruct (Py.float_of_str w); reflexivity. }
  apply IH; [lia|exact Hf].
Qed.

(** With the format [ri] the loop appends the pairs it has read so far,
    one to each series from series [k] on, also when it ends with an
    exception; when it ends without one, it has read all the values. *)
Lemma append_loop_ri_shape fr (n : nat) :
  forall vals k o, (List.length vals <= n)%nat ->
    Options.format (opts o) = "ri" ->
    exists ps,
      fst (append_loop math_exp fr vals k o)
      = with_sdata (add_points fr k ps (sdata o)) o
      /\ (ps = [] \/ (k + List.length ps <= List.length (sdata o))%nat)
      /\ (2 * List.length ps <= List.length vals)%nat
      /\ (snd (append_loop math_exp fr vals k o) = Ok tt ->
          read_pairs vals = Some ps).
Proof.
  induction n as [|n IH]; intros [|v rest] k o Hn Hf; cbn [List.length] in Hn;
    try lia;
    try (exists []; cbn; rewrite with_sdata_same; repeat split; auto; lia).
  cbn [append_loop]. unfold_monad. rewrite Hf.
  cbn [String.eqb Ascii.eqb Bool.eqb].
  destruct (Nat.ltb_spec k (List.length (sdata o))) as [Hk|Hk].
  2:{ exists []. cbn. rewrite with_sdata_same.
      repeat split; auto; try lia; discriminate. }
  destruct (Py.float_of_str v) as [x|e] eqn:Hx.
  2:{ exists []. cbn. rewrite with_sdata_same.
      repeat split; auto; try lia; discriminate. }
  destruct rest as [|w rest'].
  { exists []. cbn. rewrite with_sdata_same.
    repeat split; auto; try lia; discriminate. }
  cbn [List.length] in Hn.
  destruct (Py.float_of_str w) as [y|e] eqn:Hy.
  2:{ exists []. cbn. rewrite with_sdata_same.
      repeat split; auto; try lia; discriminate. }
  destruct (IH rest' (S k) (append_point k (mkDatapoint fr x y) o))
    as (ps & H1 & H2 & H3 & H4); [lia|exact Hf|].
  exists ((x, y) :: ps). rewrite H1. cbn [add_points List.length].
  split; [reflexivity|]. split; [|split].
  - right. destruct H2 as [->|H2]; cbn in *; [lia|].
    rewrite append_at_length in H2. lia.
  - lia.
  - intros Hok. cbn [read_pairs]. rewrite Hx, Hy, (H4 Hok). reflexivity.
Qed.

(** With the format [ri], values that read as pairs, no more pairs than
    series are left: the loop appends every pair and returns. *)
Lemma append_loop_ri_pairs fr (n : nat) :
  forall vals ps k o, (List.length vals <= n)%nat ->
    Options.format (opts o) = "ri" ->
    read_pairs vals = Some ps ->
    (k + List.length ps <= List.length (sdata o))%nat ->
    append_loop math_exp fr vals k o
    = (with_sdata (add_points fr k ps (sdata o)) o, Ok tt).
Proof.
  induction n as [|n IH]; intros [|v rest] ps k o Hn Hf Hr Hk;
    cbn [List.length] in Hn; try lia;
    try (injection Hr as <-; cbn; now rewrite with_sdata_same).
  cbn [read_pairs] in Hr. destruct rest as [|w rest']; [discriminate|].
  cbn [List.length] in Hn.
  destruct (Py.float_of_str v) as [x|e] eqn:Hx; [|discriminate].
  destruct (Py.float_of_str w) as [y|e] eqn:Hy; [|discriminate].
  destruct (read_pairs rest') as [ps'|] eqn:Hps; [|discriminate].
  injection Hr as <-. cbn [List.length] in Hk.
  cbn [append_loop]. unfold_monad. rewrite Hf.
  cbn [String.eqb Ascii.eqb Bool.eqb].
  replace (k <? List.length (sdata o))%nat with true
    by (symmetry; apply Nat.ltb_lt; lia).
  rewrite Hx, Hy.
  rewrite (IH rest' ps' (S k)); try assumption; try lia.
  - reflexivity.
  - cbn. rewrite append_at_length. lia.
Qed.

(** X7.  With the format [ri], a line whose values read as pairs of
    floats, no more pairs than the parser has series: [_append_line_data]
    returns without an exception, the pair number [i] goes to the end of
    series [i] as the point with the frequency of the line and the two
    values as they are, and nothing else changes. *)
Theorem append_line_data_ri fr data ps o :
  Options.format (opts o) = "ri" ->
  read_pairs data = Some ps ->
  (List.length ps <= List.length (sdata o))%nat ->
  exists o',
    append_line_data math_exp fr data o = (o', Ok tt)
    /\ (forall i, nth i (sdata o') []
                  = nth i (sdata o) []
                    ++ match nth_error ps i with
                       | Some p => [mkDatapoint fr (fst p) (snd p)]
                       | None => []
                       end)
    /\ filename o' = filename o /\ comments o' = comments o /\ opts o' = opts o.
Proof.
  intros Hf Hr Hn. eexists. split.
  - unfold append_line_data.
    apply (append_loop_ri_pairs fr (List.length data)); try eassumption; lia.
  - cbn. repeat split. intros i.
    rewrite nth_add_points by (cbn; lia). cbn. now rewrite Nat.sub_0_r.
Qed.

End Values.

(** ** Further properties of Touchstone: comments, options line, data lines *)

Section Pipeline.

Import Touchstone.

Variable math_exp : Py.float -> result Py.float.

Lemma append_loop_fields fr (n : nat) :
  forall vals k o, (List.length vals <= n)%nat ->
    fst (append_loop math_exp fr vals k o)
    = with_sdata (sdata (fst (append_loop math_exp fr vals k o))) o.
Proof.
  intros vals k o Hn.
  destruct (String.eqb (Options.format (opts o)) "ri") eqn:Hf.
  - apply String.eqb_eq in Hf.
    destruct (append_loop_ri_shape math_exp fr n vals k o Hn Hf)
      as (ps & -> & _). reflexivity.
  - rewrite (append_loop_not_ri math_exp fr n vals k o Hn Hf).
    now rewrite with_sdata_same.
Qed.

Lemma append_line_data_fields fr data o :
  fst (append_line_data math_exp fr data o)
  = with_sdata (sdata (fst (append_line_data math_exp fr data o))) o.
Proof. apply (append_loop_fields fr (List.length data)). lia. Qed.

(** The loop over the data lines changes the series only. *)
Lemma data_lines_fields file :
  forall prev plen o,
    fst (data_lines math_exp file prev plen o)
    = with_sdata (sdata (fst (data_lines math_exp file prev plen o))) o.
Proof.
  induction file as [|line file IH]; intros prev plen o.
  { cbn. now rewrite with_sdata_same. }
  cbn [data_lines].
  destruct (String.eqb (Py.strip line) ""); [apply IH|].
  destruct (Py.split (Py.before "!" line)) as [|d0 data];
    [cbn; now rewrite with_sdata_same|].
  unfold_monad.
  destruct (Py.float_of_str d0) as [x|e]; [|cbn; now rewrite with_sdata_same].
  destruct (Options.factor (opts o)) as [k|e]; [|cbn; now rewrite with_sdata_same].
  destruct (Py.fle _ prev); [cbn; now rewrite with_sdata_same|].
  destruct (check_len line plen (List.length data)) as [plen'|e];
    [|cbn; now rewrite with_sdata_same].
  pose proof (append_line_data_fields (Py.fmul x (Py.float_of_Z k)) data o) as Ha.
  destruct (append_line_data math_exp _ data o) as [o1 [[]|e]]; cbn [fst] in Ha.
  - rewrite IH. rewrite Ha at 2. reflexivity.
  - cbn [fst]. exact Ha.
Qed.

(** The comments [_parse_comments] takes and the line it returns. *)
Lemma parse_comments_shape fp o :
  exists pre,
    Forall (fun l => is_comment l = true) pre
    /\ fst (parse_comments fp o)
       = with_comments (comments o ++ map Py.strip pre) o
    /\ ((fp = pre /\ snd (parse_comments fp o) = Ok (None, []))
        \/ exists l rest,
             fp = pre ++ l :: rest /\ is_comment l = false
             /\ snd (parse_comments fp o) = Ok (Some (Py.strip l), rest)).
Proof.
  revert o. induction fp as [|line fp IH]; intros o.
  - exists []. cbn. rewrite app_nil_r. split; [constructor|].
    split; [now destruct o|]. now left.
  - cbn [parse_comments]. destruct (Py.startswith (Py.strip line) "!") eqn:Hc.
    + unfold_monad. destruct (IH (add_comment (Py.strip line) o))
        as (pre & Hpre & Hfst & Hsnd).
      exists (line :: pre). split; [now constructor|]. split.
      * rewrite Hfst. unfold with_comments, add_comment. cbn.
        now rewrite <- app_assoc.
      * destruct Hsnd as [[-> H]|(l & rest & -> & Hl & H)].
        -- left. now split.
        -- right. exists l, rest. now repeat split.
    + exists []. cbn. rewrite app_nil_r. split; [constructor|].
      split; [now destruct o|]. right. exists line, fp. now repeat split.
Qed.

(** X8.  [_parse_comments] takes the longest run of leading lines that
    start with [!] once stripped, stores them stripped and in order behind
    the comments the parser had, and changes nothing else.  It returns the
    next line, stripped, and leaves the lines after it unread; when the
    lines run out it returns [None]. *)
Theorem parse_comments_split fp o :
  exists pre,
    Forall (fun l => is_comment l = true) pre
    /\ fst (parse_comments fp o)
       = with_comments (comments o ++ map Py.strip pre) o
    /\ ((fp = pre /\ snd (parse_comments fp o) = Ok (None, []))
        \/ exists l rest,
             fp = pre ++ l :: rest /\ is_comment l = false
             /\ snd (parse_comments fp o) = Ok (Some (Py.strip l), rest)).
Proof. exact (parse_comments_shape fp o). Qed.

(** What [loads] does up to the options line. *)
Lemma loads_unfold s o :
  loads math_exp s o
  = let (o1, r) := parse_comments (Py.readlines s) o in
    match r with
    | Ok (line, rest) =>
        let (op, r2) := Options.parse line (opts o1) in
        match r2 with
        | Ok _ => data_lines math_exp rest fzero 0
                    (mk (filename o1) (sdata o1) (comments o1) op)
        | Raise e => (mk (filename o1) (sdata o1) (comments o1) op, Raise e)
        end
    | Raise e => (o1, Raise e)
    end.
Proof.
  unfold loads, bind, on_opts.
  destruct (parse_comments (Py.readlines s) o) as [o1 [[line rest]|e]];
    [|reflexivity].
  cbn [fst snd]. destruct (Options.parse line (opts o1)) as [op [[]|e]];
    reflexivity.
Qed.

(** What [loads] leaves as it is. *)
Lemma loads_fixed s o :
  filename (fst (loads math_exp s o)) = filename o
  /\ Options.unit (opts (fst (loads math_exp s o))) = Options.unit (opts o)
  /\ Options.factor (opts (fst (loads math_exp s o))) = Options.factor (opts o)
  /\ List.length (sdata (fst (loads math_exp s o))) = List.length (sdata o).
Proof.
  assert (H : filename (fst (loads math_exp s o)) = filename o
              /\ Options.unit (opts (fst (loads math_exp s o)))
                 = Options.unit (opts o)).
  { rewrite loads_unfold.
    destruct (parse_comments_shape (Py.readlines s) o) as (pre & _ & Hfst & _).
    destruct (parse_comments (Py.readlines s) o) as [o1 [[line rest]|e]];
      cbn [fst] in Hfst; subst o1; [|split; reflexivity].
    pose proof (parse_unit line (opts (with_comments
                  (comments o ++ map Py.strip pre) o))) as Hu.
    destruct (Options.parse line _) as [op [[]|e]]; cbn [fst] in Hu.
    - rewrite data_lines_fields. cbn. split; [reflexivity|exact Hu].
    - cbn. split; [reflexivity|exact Hu]. }
  destruct H as [H1 H2]. repeat split; try assumption.
  - now apply factor_depends_on_unit.
  - apply loads_slots.
Qed.

(** X9.  [loads] never changes the file name, the unit of the options, the
    factor or the number of series of the parser, whatever the text and
    whether it returns or raises. *)
Theorem loads_keeps_unit s o :
  filename (fst (loads math_exp s o)) = filename o
  /\ Options.unit (opts (fst (loads math_exp s o))) = Options.unit (opts o)
  /\ Options.factor (opts (fst (loads math_exp s o))) = Options.factor (opts o)
  /\ List.length (sdata (fst (loads math_exp s o))) = List.length (sdata o).
Proof. exact (loads_fixed s o). Qed.

Lemma comments_after_loads s o :
  comments (fst (loads math_exp s o))
  = comments (fst (parse_comments (Py.readlines s) o)).
Proof.
  rewrite loads_unfold.
  destruct (parse_comments (Py.readlines s) o) as [o1 [[line rest]|e]];
    [|reflexivity].
  destruct (Options.parse line (opts o1)) as [op [[]|e]]; [|reflexivity].
  rewrite data_lines_fields. reflexivity.
Qed.

Lemma is_comment_bang l :
  is_comment l = true -> Py.startswith (Py.strip l) "!" = true.
Proof. exact (fun H => H). Qed.

(** X10.  When every comment the parser holds starts with [!], so does
    every comment it holds after [loads], whatever the text. *)
Theorem loads_comments_start_with_bang s o :
  Forall (fun c => Py.startswith c "!" = true) (comments o) ->
  Forall (fun c => Py.startswith c "!" = true)
         (comments (fst (loads math_exp s o))).
Proof.
  intros H. rewrite comments_after_loads.
  destruct (parse_comments_shape (Py.readlines s) o) as (pre & Hpre & -> & _).
  cbn. apply Forall_app. split; [exact H|].
  apply Forall_map. revert Hpre. apply Forall_impl.
  intros l. apply is_comment_bang.
Qed.

Lemma data_lines_nonblank file :
  forall prev plen o,
    data_lines math_exp (nonblank file) prev plen o
    = data_lines math_exp file prev plen o.
Proof.
  induction file as [|line file IH]; intros prev plen o; [reflexivity|].
  unfold nonblank. cbn [filter]. fold (nonblank file).
  destruct (is_blank line) eqn:Hb; cbn [negb].
  - rewrite data_lines_blank by exact Hb. apply IH.
  - unfold is_blank in Hb. cbn [data_lines]. rewrite Hb.
    destruct (Py.split (Py.before "!" line)) as [|d0 data]; [reflexivity|].
    unfold_monad.
    destruct (Py.float_of_str d0) as [x|e]; [|reflexivity].
    destruct (Options.factor (opts o)) as [k|e]; [|reflexivity].
    destruct (Py.fle _ prev); [reflexivity|].
    destruct (check_len line plen (List.length data)) as [plen'|e]; [|reflexivity].
    destruct (append_line_data math_exp _ data o) as [o1 [[]|e]]; [|reflexivity].
    apply IH.
Qed.

(** X11.  Blank lines among the data lines count for nothing: the loop of
    [loads] does on the lines what it does on the lines that are not
    blank, for every [prev_freq], [prev_len] and parser. *)
Theorem blank_lines_ignored file prev plen o :
  data_lines math_exp file prev plen o
  = data_lines math_exp (nonblank file) prev plen o.
Proof. symmetry. apply data_lines_nonblank. Qed.

Lemma data_lines_polar_formats file :
  forall prev plen o,
    Options.format (opts o) = "ma" \/ Options.format (opts o) = "db" ->
    sdata (fst (data_lines math_exp file prev plen o)) = sdata o.
Proof.
  induction file as [|line file IH]; intros prev plen o Hf; [reflexivity|].
  cbn [data_lines].
  destruct (String.eqb (Py.strip line) ""); [now apply IH|].
  destruct (Py.split (Py.before "!" line)) as [|d0 data]; [reflexivity|].
  unfold_monad.
  destruct (Py.float_of_str d0) as [x|e]; [|reflexivity].
  destruct (Options.factor (opts o)) as [k|e]; [|reflexivity].
  destruct (Py.fle _ prev); [reflexivity|].
  destruct (check_len line plen (List.length data)) as [plen'|e]; [|reflexivity].
  destruct data as [|v rest].
  - cbn. now apply IH.
  - unfold append_line_data.
    destruct (polar_formats_never_append math_exp
                (Py.fmul x (Py.float_of_Z k)) v rest 0 o Hf) as [e ->].
    reflexivity.
Qed.

(** X12.  When the options of the parser after [loads] have the format
    [ma] or [db], the call has stored no point: the series are what they
    were before the call, whatever the text. *)
Theorem polar_formats_store_nothing s o :
  Options.format (opts (fst (loads math_exp s o))) = "ma"
  \/ Options.format (opts (fst (loads math_exp s o))) = "db" ->
  sdata (fst (loads math_exp s o)) = sdata o.
Proof.
  rewrite loads_unfold.
  destruct (parse_comments_shape (Py.readlines s) o) as (pre & _ & Hfst & _).
  destruct (parse_comments (Py.readlines s) o) as [o1 [[line rest]|e]];
    cbn [fst] in Hfst; subst o1; [|reflexivity].
  destruct (Options.parse line _) as [op [[]|e]]; [|reflexivity].
  rewrite data_lines_fields. cbn [fst opts with_sdata with_comments
    filename sdata comments].
  intros Hf. now rewrite data_lines_polar_formats.
Qed.

End Pipeline.

(** ** Further properties of Touchstone: the options line and the file *)

Section Header.

Import Touchstone.

Variable math_exp : Py.float -> result Py.float.

(** [loads] on a text whose first line that is no comment is [l]. *)
Lemma loads_at_options_line s o pre l rest :
  Py.readlines s = pre ++ l :: rest ->
  Forall (fun c => is_comment c = true) pre ->
  is_comment l = false ->
  loads math_exp s o
  = let o1 := with_comments (comments o ++ map Py.strip pre) o in
    let (op, r2) := Options.parse (Some (Py.strip l)) (opts o) in
    match r2 with
    | Ok _ => data_lines math_exp rest fzero 0
                (mk (filename o1) (sdata o1) (comments o1) op)
    | Raise e => (mk (filename o1) (sdata o1) (comments o1) op, Raise e)
    end.
Proof.
  intros Hs Hpre Hl. rewrite loads_unfold, Hs.
  assert (Hc : forall o,
             parse_comments (pre ++ l :: rest) o
             = (with_comments (comments o ++ map Py.strip pre) o,
                Ok (Some (Py.strip l), rest))).
  { clear -Hpre Hl. induction Hpre as [|c pre Hc _ IH]; intros o.
    - cbn. unfold is_comment in Hl. rewrite Hl, app_nil_r. now destruct o.
    - cbn [app parse_comments]. unfold is_comment in Hc. rewrite Hc.
      unfold_monad. rewrite IH. unfold with_comments, add_comment. cbn.
      now rewrite <- app_assoc. }
  rewrite Hc. reflexivity.
Qed.

(** X13.  When the first line that is no comment does not start with [#]
    once stripped, [loads] raises [TypeError] with the message
    ["Not an option line: "] and the stripped line; the comments before
    the line are stored, nothing else changes, and no data line is read.
    [load] on a file with that text logs the error and returns. *)
Theorem not_an_option_line s o pre l rest read :
  Py.readlines s = pre ++ l :: rest ->
  Forall (fun c => is_comment c = true) pre ->
  Py.startswith (Py.strip l) "!" = false ->
  Py.startswith (Py.strip l) "#" = false ->
  loads math_exp s o
  = (with_comments (comments o ++ map Py.strip pre) o,
     Raise (raised TypeError ("Not an option line: " ++ Py.strip l)%string))
  /\ (read (filename o) = FileText s ->
      load math_exp read o
      = (with_comments (comments o ++ map Py.strip pre) o, Ok tt)).
Proof.
  intros Hs Hpre Hl Hh.
  assert (H : loads math_exp s o
              = (with_comments (comments o ++ map Py.strip pre) o,
                 Raise (raised TypeError
                          ("Not an option line: " ++ Py.strip l)%string))).
  { rewrite (loads_at_options_line s o pre l rest Hs Hpre Hl).
    unfold Options.parse. rewrite Hh. cbn. now destruct o. }
  split; [exact H|]. intros Hr. unfold load. now rewrite Hr, H.
Qed.

(** X14.  When the options line has a unit keyword as its first token,
    [loads] raises [AttributeError]: the comments before the line are
    stored, nothing else changes, and no data line is read.  [load] on a
    file with that text lets the exception through. *)
Theorem unit_header_raises s o pre l rest u toks read :
  Py.readlines s = pre ++ l :: rest ->
  Forall (fun c => is_comment c = true) pre ->
  Py.startswith (Py.strip l) "!" = false ->
  Py.startswith (Py.strip l) "#" = true ->
  option_tokens (Py.strip l) = u :: toks ->
  Py.mem u Options.VALID_UNITS = true ->
  loads math_exp s o
  = (with_comments (comments o ++ map Py.strip pre) o,
     Raise (builtin AttributeError))
  /\ (read (filename o) = FileText s ->
      load math_exp read o
      = (with_comments (comments o ++ map Py.strip pre) o,
         Raise (builtin AttributeError))).
Proof.
  intros Hs Hpre Hl Hh Ht Hu.
  assert (H : loads math_exp s o
              = (with_comments (comments o ++ map Py.strip pre) o,
                 Raise (builtin AttributeError))).
  { rewrite (loads_at_options_line s o pre l rest Hs Hpre Hl).
    unfold Options.parse. rewrite Hh. cbn [negb].
    unfold option_tokens in Ht. rewrite Ht.
    rewrite parse_params_unit_token by (exact Hu || reflexivity).
    cbn. now destruct o. }
  split; [exact H|]. intros Hr. unfold load. now rewrite Hr, H.
Qed.

(** X15.  A call of [loads] that returns without an exception has read an
    options line: the first line of the text that is no comment starts
    with [#] once stripped, and none of its tokens is a unit keyword. *)
Theorem loaded_header_has_no_unit s o o' :
  loads math_exp s o = (o', Ok tt) ->
  exists pre l rest,
    Py.readlines s = pre ++ l :: rest
    /\ Forall (fun c => is_comment c = true) pre
    /\ is_comment l = false
    /\ Py.startswith (Py.strip l) "#" = true
    /\ Forall (fun tok => Py.mem tok Options.VALID_UNITS = false)
              (option_tokens (Py.strip l)).
Proof.
  intros Hrun.
  destruct (parse_comments_shape (Py.readlines s) o)
    as (pre & Hpre & Hfst & [[Hfp Hsnd]|(l & rest & Hfp & Hl & Hsnd)]).
  - exfalso. rewrite loads_unfold in Hrun.
    destruct (parse_comments (Py.readlines s) o) as [o1 r]. cbn in Hsnd.
    subst r. cbn in Hrun. discriminate.
  - exists pre, l, rest. repeat split; try assumption.
    + rewrite (loads_at_options_line s o pre l rest Hfp Hpre Hl) in Hrun.
      cbn zeta in Hrun. unfold Options.parse in Hrun.
      destruct (Py.startswith (Py.strip l) "#"); [reflexivity|].
      cbn in Hrun. discriminate.
    + apply Forall_forall. intros tok Hin.
      destruct (Py.mem tok Options.VALID_UNITS) eqn:Hu; [|reflexivity].
      exfalso.
      destruct (parse_with_unit_raises (Py.strip l) tok (opts o) Hu Hin)
        as [e He].
      rewrite (loads_at_options_line s o pre l rest Hfp Hpre Hl) in Hrun.
      cbn zeta in Hrun.
      destruct (Options.parse (Some (Py.strip l)) (opts o)) as [op r2].
      cbn in He. subst r2. discriminate.
Qed.

(** X16.  [load] never ends with a [TypeError]; when the file cannot be
    read ([IOError]) it returns and leaves the parser as it was; when the
    file is read, the parser is left as [loads] on its text leaves it,
    also when [loads] raises (nothing is undone). *)
Theorem load_catches read o :
  (forall e, snd (load math_exp read o) = Raise e -> exn_kind e <> TypeError)
  /\ (read (filename o) = FileIOError -> load math_exp read o = (o, Ok tt))
  /\ (forall s, read (filename o) = FileText s ->
        fst (load math_exp read o) = fst (loads math_exp s o)).
Proof.
  unfold load. repeat split.
  - intros e. destruct (read (filename o)) as [s| |e0].
    + destruct (loads math_exp s o) as [o' [[]|e1]]; cbn; [discriminate|].
      destruct (exn_kind e1) eqn:Hk; try discriminate;
        intros [= <-]; rewrite Hk; discriminate.
    + discriminate.
    + cbn. destruct (exn_kind e0) eqn:Hk; try discriminate;
        intros [= <-]; rewrite Hk; discriminate.
  - now intros ->.
  - intros s ->. now destruct (loads math_exp s o).
Qed.

End Header.

(** ** Further properties of Touchstone: the order of the series *)

Section Order.

Import Touchstone.

Variable math_exp : Py.float -> result Py.float.

Lemma chain_snoc fs f d :
  chain fs -> (fs <> [] -> Py.flt (List.last fs d) f = true) ->
  chain (fs ++ [f]).
Proof.
  induction fs as [|x fs IH]; intros Hc Hl; [exact I|].
  destruct fs as [|y fs].
  - cbn. split; [|exact I]. apply Hl. discriminate.
  - destruct Hc as [Hxy Hc]. cbn [app chain]. split; [exact Hxy|].
    apply IH; [exact Hc|]. intros _. apply Hl. discriminate.
Qed.

Lemma has_nan_snoc s p :
  has_nan (s ++ [p]) = has_nan s || Py.is_nan (freq p).
Proof. unfold has_nan. rewrite existsb_app. cbn. now rewrite orb_false_r. Qed.

Lemma last_not_nan s d :
  has_nan s = false -> s <> [] -> Py.is_nan (List.last (freqs s) d) = false.
Proof.
  induction s as [|p s IH]; intros Hn Hs; [congruence|].
  cbn in Hn. apply orb_false_elim in Hn. destruct Hn as [Hp Hn].
  destruct s as [|q s]; [exact Hp|].
  change (Py.is_nan (List.last (freqs (q :: s)) d) = false).
  apply IH; [exact Hn|discriminate].
Qed.

Lemma good_snoc prev s f p :
  good prev s -> freq p = f -> Py.fle f prev = false -> good f (s ++ [p]).
Proof.
  intros Hg Hp Hle. unfold good.
  destruct (has_nan (s ++ [p])) eqn:Hn; [now left|right].
  rewrite has_nan_snoc in Hn. apply orb_false_elim in Hn.
  destruct Hn as [Hs Hf]. rewrite Hp in Hf.
  destruct Hg as [Hg|[Hc Hl]]; [congruence|].
  unfold freqs. rewrite map_app. cbn [map]. rewrite Hp. split.
  - apply (chain_snoc _ f prev); [exact Hc|]. intros Hne.
    fold (freqs s) in *. rewrite Hl. apply fle_false_flt; try assumption.
    rewrite <- Hl. apply last_not_nan; [exact Hs|].
    intros ->. now apply Hne.
  - apply last_last.
Qed.

Lemma good_nil prev : good prev [].
Proof. right. now split. Qed.

Lemma good_ascends prev s : good prev s -> has_nan s = false -> chain (freqs s).
Proof. intros [H|[H _]] Hn; [congruence|exact H]. Qed.

Lemma inv_ascend prev plen o : series_inv prev plen o -> series_ascend (sdata o).
Proof.
  intros [He|(_ & n & len & _ & _ & _ & Hrows)] i Hn.
  - now rewrite He.
  - destruct (Nat.lt_ge_cases i n) as [Hi|Hi].
    + destruct (proj1 (Hrows i) Hi) as (_ & _ & Hg). now apply (good_ascends prev).
    + now rewrite (proj2 (Hrows i) Hi).
Qed.

Lemma inv_same_length prev plen o : series_inv prev plen o -> same_length (sdata o).
Proof.
  intros [He|(_ & n & len & _ & _ & _ & Hrows)].
  - exists 0%nat. intros i. left. apply He.
  - exists len. intros i. destruct (Nat.lt_ge_cases i n) as [Hi|Hi].
    + right. apply (proj1 (Hrows i) Hi).
    + left. apply (proj2 (Hrows i) Hi).
Qed.

Lemma read_pairs_length vals :
  forall ps, read_pairs vals = Some ps ->
             List.length vals = (2 * List.length ps)%nat.
Proof.
  induction vals as [vals IH] using (well_founded_induction
    (Wf_nat.well_founded_ltof _ (@List.length string))).
  intros ps H. destruct vals as [|a [|b rest]]; cbn [read_pairs] in H.
  - injection H as <-. reflexivity.
  - discriminate.
  - destruct (Py.float_of_str a); [|discriminate].
    destruct (Py.float_of_str b); [|discriminate].
    destruct (read_pairs rest) as [ps'|] eqn:Hr; [|discriminate].
    injection H as <-. cbn [List.length].
    rewrite (IH rest) with (ps := ps');
      [lia|unfold Wf_nat.ltof; cbn; lia|exact Hr].
Qed.

(** What [_append_line_data] does to the series, whatever the format and
    the outcome. *)
Lemma append_shape fr data o :
  exists ps,
    fst (append_line_data math_exp fr data o)
    = with_sdata (add_points fr 0 ps (sdata o)) o
    /\ (List.length ps <= List.length (sdata o))%nat
    /\ (2 * List.length ps <= List.length data)%nat
    /\ (String.eqb (Options.format (opts o)) "ri" = false -> ps = [])
    /\ (snd (append_line_data math_exp fr data o) = Ok tt ->
        Options.format (opts o) = "ri" ->
        List.length data = (2 * List.length ps)%nat).
Proof.
  unfold append_line_data.
  destruct (String.eqb (Options.format (opts o)) "ri") eqn:Hf.
  - apply String.eqb_eq in Hf.
    destruct (append_loop_ri_shape math_exp fr (List.length data) data 0 o
                (Nat.le_refl _) Hf) as (ps & H1 & H2 & H3 & H4).
    exists ps. repeat split; try assumption.
    + destruct H2 as [->|H2]; cbn in *; lia.
    + discriminate.
    + intros Hok _. now apply read_pairs_length, H4.
  - exists []. rewrite (append_loop_not_ri math_exp fr (List.length data))
      by (lia || exact Hf).
    cbn. rewrite with_sdata_same. repeat split; try lia.
    intros _ H. rewrite H in Hf. discriminate.
Qed.

Lemma nth_added fr ps sd i :
  (List.length ps <= List.length sd)%nat ->
  nth i (add_points fr 0 ps sd) []
  = nth i sd [] ++ match nth_error ps i with
                   | Some p => [point_of fr p]
                   | None => []
                   end.
Proof.
  intros H. rewrite nth_add_points by (cbn; lia). cbn.
  now rewrite Nat.sub_0_r.
Qed.

(** One accepted line keeps the series in order. *)
Lemma step_inv prev plen o f (data : list string)
      (ps : list (Py.float * Py.float)) :
  series_inv prev plen o ->
  Py.fle f prev = false ->
  plen = 0%nat \/ List.length data = plen ->
  (List.length ps <= List.length (sdata o))%nat ->
  (2 * List.length ps <= List.length data)%nat ->
  (String.eqb (Options.format (opts o)) "ri" = false -> ps = []) ->
  series_ascend (add_points f 0 ps (sdata o))
  /\ ((Options.format (opts o) = "ri" ->
       List.length data = (2 * List.length ps)%nat) ->
      series_inv f (List.length data)
        (with_sdata (add_points f 0 ps (sdata o)) o)).
Proof.
  intros Hinv Hle Hlen Hps Hdata Hfmt.
  destruct Hinv as [He|(Hri & n & len & Hplen & Hn & Hsd & Hrows)].
  - split.
    + intros i _. rewrite nth_added by exact Hps. rewrite He.
      destruct (nth_error ps i); exact I.
    + intros Heq. destruct ps as [|p ps].
      { left. exact He. }
      right. destruct (String.eqb (Options.format (opts o)) "ri") eqn:Hf;
        [|now discriminate (Hfmt eq_refl)].
      apply String.eqb_eq in Hf. split; [exact Hf|].
      exists (List.length (p :: ps)), 1%nat. split; [now apply Heq|].
      split; [cbn; lia|]. split; [cbn [sdata with_sdata];
        rewrite add_points_length; exact Hps|].
      intros i. cbn [sdata with_sdata]. rewrite nth_added by exact Hps.
      rewrite He. split.
      * intros Hi. apply nth_error_Some in Hi.
        destruct (nth_error (p :: ps) i) as [q|]; [|congruence].
        cbn [app]. split; [discriminate|]. split; [reflexivity|].
        apply (good_snoc prev [] f); [apply good_nil|reflexivity|exact Hle].
      * intros Hi. apply nth_error_None in Hi. now rewrite Hi.
  - assert (Hd : List.length data = plen) by (destruct Hlen; [lia|assumption]).
    split.
    + intros i Hnan. rewrite nth_added in * by exact Hps.
      destruct (nth_error ps i) as [q|] eqn:Hq.
      * assert (Hi : (i < n)%nat).
        { assert (i < List.length ps)%nat
            by (apply nth_error_Some; congruence). lia. }
        destruct (proj1 (Hrows i) Hi) as (_ & _ & Hg).
        apply (good_ascends f); [|exact Hnan].
        apply (good_snoc prev); [exact Hg|reflexivity|exact Hle].
      * rewrite app_nil_r in *.
        destruct (Nat.lt_ge_cases i n) as [Hi|Hi].
        -- destruct (proj1 (Hrows i) Hi) as (_ & _ & Hg).
           now apply (good_ascends prev).
        -- now rewrite (proj2 (Hrows i) Hi).
    + intros Heq. right. split; [exact Hri|].
      exists n, (S len). split; [lia|]. split; [exact Hn|].
      split; [cbn [sdata with_sdata]; now rewrite add_points_length|].
      assert (Hpn : List.length ps = n) by (specialize (Heq Hri); lia).
      intros i. cbn [sdata with_sdata]. rewrite nth_added by exact Hps. split.
      * intros Hi. destruct (proj1 (Hrows i) Hi) as (Hne & Hl & Hg).
        assert (Hq : nth_error ps i <> None)
          by (apply nth_error_Some; lia).
        destruct (nth_error ps i) as [q|]; [|congruence].
        split; [now destruct (nth i (sdata o) [])|].
        split; [rewrite length_app; cbn; lia|].
        apply (good_snoc prev); [exact Hg|reflexivity|exact Hle].
      * intros Hi. rewrite (proj2 (Hrows i) Hi).
        assert (Hq : nth_error ps i = None) by (apply nth_error_None; lia).
        now rewrite Hq.
Qed.

Lemma check_len_ok line plen m p :
  check_len line plen m = Ok p ->
  p = m /\ (plen = 0%nat \/ m = plen).
Proof.
  unfold check_len. destruct (Nat.eqb_spec plen 0) as [->|Hp].
  - destruct (Nat.odd m); [discriminate|]. intros [= <-]. auto.
  - destruct (Nat.eqb_spec m plen) as [->|Hm]; [|discriminate].
    intros [= <-]. auto.
Qed.

Lemma data_lines_inv file :
  forall prev plen o,
    series_inv prev plen o ->
    series_ascend (sdata (fst (data_lines math_exp file prev plen o)))
    /\ (snd (data_lines math_exp file prev plen o) = Ok tt ->
        exists prev' plen',
          series_inv prev' plen' (fst (data_lines math_exp file prev plen o))).
Proof.
  induction file as [|line file IH]; intros prev plen o Hinv.
  { cbn. split; [now apply (inv_ascend prev plen)|]. intros _. eauto. }
  pose proof (inv_ascend prev plen o Hinv) as Hasc.
  cbn [data_lines].
  destruct (String.eqb (Py.strip line) ""); [now apply IH|].
  destruct (Py.split (Py.before "!" line)) as [|d0 data];
    [cbn; split; [exact Hasc|discriminate]|].
  unfold_monad.
  destruct (Py.float_of_str d0) as [x|e];
    [|cbn; split; [exact Hasc|discriminate]].
  destruct (Options.factor (opts o)) as [k|e];
    [|cbn; split; [exact Hasc|discriminate]].
  destruct (Py.fle _ prev) eqn:Hle;
    [cbn; split; [exact Hasc|discriminate]|].
  destruct (check_len line plen (List.length data)) as [plen'|e] eqn:Hck;
    [|cbn; split; [exact Hasc|discriminate]].
  apply check_len_ok in Hck. destruct Hck as [-> Hlen].
  destruct (append_shape (Py.fmul x (Py.float_of_Z k)) data o)
    as (ps & Hfst & Hps & Hdata & Hfmt & Hok).
  assert (Hlen' : plen = 0%nat \/ List.length data = plen)
    by (destruct Hlen; auto).
  destruct (step_inv prev plen o _ data ps Hinv Hle Hlen' Hps Hdata Hfmt)
    as [Hasc1 Hinv1].
  destruct (append_line_data math_exp _ data o) as [o1 [[]|e]];
    cbn [fst snd] in *; subst o1.
  - apply IH. apply Hinv1. intros Hri. now apply Hok.
  - split; [exact Hasc1|discriminate].
Qed.

Lemma loads_inv s o :
  allempty (sdata o) ->
  series_ascend (sdata (fst (loads math_exp s o)))
  /\ (snd (loads math_exp s o) = Ok tt ->
      same_length (sdata (fst (loads math_exp s o)))).
Proof.
  intros He. rewrite loads_unfold.
  destruct (parse_comments_shape (Py.readlines s) o) as (pre & _ & Hfst & _).
  assert (Hasc : series_ascend (sdata o)).
  { intros i _. now rewrite He. }
  destruct (parse_comments (Py.readlines s) o) as [o1 [[line rest]|e]];
    cbn [fst] in Hfst; subst o1; [|split; [exact Hasc|discriminate]].
  destruct (Options.parse line _) as [op [[]|e]];
    [|split; [exact Hasc|discriminate]].
  match goal with |- context [data_lines _ _ _ _ ?o0] =>
    destruct (data_lines_inv rest fzero 0 o0) as [H1 H2]; [now left|] end.
  split; [exact H1|]. intros Hok. destruct (H2 Hok) as (prev' & plen' & Hinv).
  now apply (inv_same_length prev' plen').
Qed.

(** X17.  A text loaded into a parser whose series are empty leaves every
    series in strictly ascending order of frequency, unless the series
    holds a point at the frequency NaN; this holds also when the call
    ends with an exception half way. *)
Theorem loads_series_ascend s o i :
  allempty (sdata o) ->
  has_nan (nth i (sdata (fst (loads math_exp s o))) []) = false ->
  chain (freqs (nth i (sdata (fst (loads math_exp s o))) [])).
Proof. intros He. exact (proj1 (loads_inv s o He) i). Qed.

(** X18.  After a call of [loads] that returned without an exception on a
    parser whose series were empty, the series that hold points hold the
    same number of points. *)
Theorem loads_series_same_length s o o' :
  allempty (sdata o) ->
  loads math_exp s o = (o', Ok tt) ->
  same_length (sdata o').
Proof.
  intros He Hrun. pose proof (proj2 (loads_inv s o He)) as H.
  rewrite Hrun in H. now apply H.
Qed.

End Order.

(** ** Further properties of Touchstone: comments on data lines, loading again *)

Section DataComments.

Import Touchstone.

Variable math_exp : Py.float -> result Py.float.

Lemma lstrip_keeps_bang l c :
  exists l', Py.lstrip (l ++ String "!" c) = (l' ++ String "!" c)%string.
Proof.
  induction l as [|a l IH].
  - exists EmptyString. reflexivity.
  - cbn. destruct (Py.isspace a); [exact IH|]. now exists (String a l).
Qed.

Lemma rstrip_keeps_bang l c : Py.rstrip (l ++ String "!" c) <> EmptyString.
Proof.
  induction l as [|a l IH].
  - cbn. destruct (Py.rstrip c); discriminate.
  - cbn. destruct (Py.rstrip (l ++ String "!" c)); [congruence|discriminate].
Qed.

Lemma bang_line_not_blank l c : is_blank (l ++ String "!" c) = false.
Proof.
  unfold is_blank, Py.strip.
  destruct (lstrip_keeps_bang l c) as [l' ->].
  pose proof (rstrip_keeps_bang l' c) as H.
  destruct (Py.rstrip (l' ++ String "!" c)); [congruence|reflexivity].
Qed.

Lemma before_bang_app l c :
  Py.before "!" l = l -> Py.before "!" (l ++ String "!" c) = l.
Proof.
  induction l as [|a l IH]; intros H; [reflexivity|].
  cbn in *. destruct (Ascii.eqb a "!"); [discriminate|].
  injection H as H. now rewrite IH.
Qed.

Lemma spaces_before_bang ws : spaces ws = true -> Py.before "!" ws = ws.
Proof.
  induction ws as [|a ws IH]; [reflexivity|]. cbn.
  intros H. apply andb_prop in H. destruct H as [Ha Hws].
  destruct (Ascii.eqb_spec a "!") as [->|_]; [discriminate|].
  now rewrite IH.
Qed.

Lemma spaces_split ws : spaces ws = true -> Py.split ws = [].
Proof.
  induction ws as [|a ws IH]; [reflexivity|]. cbn.
  intros H. apply andb_prop in H. destruct H as [Ha Hws].
  rewrite Ha. now apply IH.
Qed.

(** X19.  A line among the data lines that holds a comment only (a [!]
    after nothing but whitespace) is not skipped: the loop raises
    [IndexError] at [data[0]] and leaves the parser as it was before the
    line. *)
Theorem comment_line_among_data ws c file prev plen o :
  spaces ws = true ->
  data_lines math_exp ((ws ++ String "!" c)%string :: file) prev plen o
  = (o, Raise (builtin IndexError)).
Proof.
  intros Hws. cbn [data_lines].
  pose proof (bang_line_not_blank ws c) as Hb. unfold is_blank in Hb.
  rewrite Hb, before_bang_app by now apply spaces_before_bang.
  now rewrite spaces_split.
Qed.

Lemma check_len_other_line l l' p m x :
  check_len l p m = Ok x -> check_len l' p m = Ok x.
Proof.
  unfold check_len. destruct (p =? 0)%nat.
  - now destruct (Nat.odd m).
  - now destruct (negb (m =? p)%nat).
Qed.

(** X20.  A comment behind the values of a data line is dropped: when the
    loop reads a line without [!] and the lines after it without an
    exception, it does the same on that line with [!] and any text put
    behind it. *)
Theorem inline_comment_dropped l c file prev plen o o' :
  Py.before "!" l = l ->
  is_blank l = false ->
  data_lines math_exp (l :: file) prev plen o = (o', Ok tt) ->
  data_lines math_exp ((l ++ String "!" c)%string :: file) prev plen o
  = (o', Ok tt).
Proof.
  intros Hl Hb Hrun. cbn [data_lines] in *.
  pose proof (bang_line_not_blank l c) as Hb'. unfold is_blank in Hb, Hb'.
  rewrite Hb', (before_bang_app l c Hl). rewrite Hb, Hl in Hrun.
  destruct (Py.split l) as [|d0 data]; [discriminate|].
  unfold_monad.
  destruct (Py.float_of_str d0) as [x|e]; [|discriminate].
  destruct (Options.factor (opts o)) as [k|e]; [|discriminate].
  destruct (Py.fle _ prev); [discriminate|].
  destruct (check_len l plen (List.length data)) as [plen'|e] eqn:Hck;
    [|discriminate].
  rewrite (check_len_other_line l (l ++ String "!" c) _ _ _ Hck).
  exact Hrun.
Qed.

Lemma opts_after_loads s o o' :
  loads math_exp s o = (o', Ok tt) ->
  exists line rest,
    snd (parse_comments (Py.readlines s) o) = Ok (line, rest)
    /\ Options.parse line (opts o) = (opts o', Ok tt).
Proof.
  rewrite loads_unfold.
  destruct (parse_comments_shape (Py.readlines s) o) as (pre & _ & Hfst & _).
  destruct (parse_comments (Py.readlines s) o) as [o1 [[line rest]|e]];
    cbn [fst] in Hfst; subst o1; [|discriminate].
  cbn [opts with_comments].
  destruct (Options.parse line (opts o)) as [op [[]|e]] eqn:Hp; [|discriminate].
  intros H. exists line, rest. split; [reflexivity|]. rewrite Hp.
  match type of H with
  | data_lines _ _ _ _ ?x = _ =>
      pose proof (data_lines_fields math_exp rest fzero 0 x) as Hf
  end.
  rewrite H in Hf. cbn in Hf. rewrite Hf. reflexivity.
Qed.

Lemma parse_comments_outcome fp :
  forall o o', snd (parse_comments fp o) = snd (parse_comments fp o').
Proof.
  induction fp as [|line fp IH]; intros o o'; [reflexivity|].
  cbn [parse_comments]. destruct (Py.startswith (Py.strip line) "!");
    [|reflexivity].
  unfold_monad. apply IH.
Qed.

Lemma comments_on_blank fp :
  forall o o',
    comments o = comments o' ->
    comments (fst (parse_comments fp o)) = comments (fst (parse_comments fp o')).
Proof.
  induction fp as [|line fp IH]; intros o o' H; [exact H|].
  cbn [parse_comments]. destruct (Py.startswith (Py.strip line) "!");
    [|exact H].
  unfold_monad. apply IH. cbn. now rewrite H.
Qed.

(** After a load that returned, the same text loads on the emptied parser
    as it did the first time. *)
Lemma loads_blank_again s o o' :
  loads math_exp s o = (o', Ok tt) ->
  loads math_exp s (blank o') = loads math_exp s (blank o).
Proof.
  intros Hrun. destruct (opts_after_loads s o o' Hrun)
    as (line & rest & Hsnd & Hparse).
  destruct (loads_fixed math_exp s o) as (Hfn & _ & _ & Hlen).
  rewrite Hrun in Hfn, Hlen. cbn [fst] in Hfn, Hlen.
  rewrite !loads_unfold.
  pose proof (parse_comments_outcome (Py.readlines s) (blank o') o) as E1.
  pose proof (parse_comments_outcome (Py.readlines s) (blank o) o) as E2.
  pose proof (comments_on_blank (Py.readlines s) (blank o') (blank o) eq_refl)
    as Ec.
  destruct (parse_comments_shape (Py.readlines s) (blank o'))
    as (pre1 & _ & F1 & _).
  destruct (parse_comments_shape (Py.readlines s) (blank o))
    as (pre2 & _ & F2 & _).
  destruct (parse_comments (Py.readlines s) (blank o')) as [a1 r1].
  destruct (parse_comments (Py.readlines s) (blank o)) as [a2 r2].
  cbn [fst snd] in *. rewrite Hsnd in E1, E2. subst r1 r2 a1 a2.
  cbn [opts with_comments blank filename sdata comments] in *.
  assert (Ht : Options.parse line (opts o') = (opts o', Ok tt)).
  { destruct (parse_update line) as (u & r & Hu). rewrite Hu in Hparse.
    injection Hparse as Ho Hr. rewrite Hu, <- Ho, apply_update_twice.
    now rewrite Hr. }
  rewrite Ht, Hparse.
  rewrite Hfn, Ec.
  replace (map (fun _ : list Datapoint => []) (sdata o'))
    with (map (fun _ : list Datapoint => @nil Datapoint) (sdata o)).
  - reflexivity.
  - clear -Hlen. revert Hlen. generalize (sdata o') as a, (sdata o) as b.
    induction a as [|x a IH]; intros [|y b] H; cbn in *;
      try reflexivity; try discriminate.
    f_equal. apply IH. now injection H.
Qed.

(** X21.  The order of the frequencies is checked within one call only:
    after a call of [loads] that returned, the same text loads again
    without an exception and puts the same points behind the first ones,
    so the points of the text are in the series twice. *)
Theorem loads_again s o o' :
  loads math_exp s o = (o', Ok tt) ->
  snd (loads math_exp s o') = Ok tt
  /\ forall i,
       nth i (sdata o') []
       = nth i (sdata o) [] ++ nth i (sdata (fst (loads math_exp s (blank o)))) []
       /\ nth i (sdata (fst (loads math_exp s o'))) []
          = nth i (sdata o') []
            ++ nth i (sdata (fst (loads math_exp s (blank o)))) [].
Proof.
  intros Hrun.
  destruct (loads_appends math_exp s o) as (H1 & _ & R1).
  destruct (loads_appends math_exp s o') as (H2 & _ & R2).
  rewrite (loads_blank_again s o o' Hrun) in H2, R2.
  rewrite Hrun in H1, R1. cbn [fst snd] in H1, R1. split.
  - now rewrite R2, <- R1.
  - intros i. split; [apply H1|apply H2].
Qed.

End DataComments.

(** ** Further properties of Touchstone: two files in one parser *)

Section TwoFiles.

Import Touchstone.

Variable math_exp : Py.float -> result Py.float.

(** X22.  Two files loaded into one parser with [setFilename] between the
    two calls of [load]: when both files can be read, each series holds
    what it held before, then the points of the first file, then the
    points of the second file, also when a text is wrong half way. *)
Theorem load_two_files read name2 s1 s2 o :
  read (filename o) = FileText s1 ->
  read name2 = FileText s2 ->
  let o1 := fst (load math_exp read o) in
  let o2 := fst (setFilename name2 o1) in
  let o3 := fst (load math_exp read o2) in
  filename o3 = name2
  /\ forall i,
       nth i (sdata o3) []
       = (nth i (sdata o) []
          ++ nth i (sdata (fst (loads math_exp s1 (blank o)))) [])
         ++ nth i (sdata (fst (loads math_exp s2 (blank o2)))) [].
Proof.
  intros H1 H2 o1 o2 o3.
  assert (E1 : o1 = fst (loads math_exp s1 o)).
  { subst o1. unfold load. rewrite H1. now destruct (loads math_exp s1 o). }
  assert (E3 : o3 = fst (loads math_exp s2 o2)).
  { subst o3. unfold load. change (filename o2) with name2. rewrite H2.
    now destruct (loads math_exp s2 o2). }
  split.
  - rewrite E3. now rewrite (proj1 (loads_fixed math_exp s2 o2)).
  - intros i. rewrite E3.
    rewrite (proj1 (loads_appends math_exp s2 o2) i).
    f_equal. change (sdata o2) with (sdata o1). rewrite E1.
    apply (proj1 (loads_appends math_exp s1 o) i).
Qed.

End TwoFiles.

(** ** Instances of the properties that have hypotheses *)

Lemma append_line_data_ri_witness :
  read_pairs ["1"; "2"; "3"; "-4"]
  = Some [(Py.float_of_Z 1, Py.float_of_Z 2); (Py.float_of_Z 3, Py.float_of_Z (-4))]
  /\ exists o',
       Touchstone.append_line_data (fun _ => Raise (builtin OverflowError))
         (Py.float_of_Z 7) ["1"; "2"; "3"; "-4"]
         (Touchstone.mk "f" [[]; []; []; []] [] (Options.mk "ghz" "s" "ri" 50))
       = (o', Ok tt)
       /\ Touchstone.s21data o'
          = [mkDatapoint (Py.float_of_Z 7) (Py.float_of_Z 3) (Py.float_of_Z (-4))].
Proof.
  assert (H : read_pairs ["1"; "2"; "3"; "-4"]
              = Some [(Py.float_of_Z 1, Py.float_of_Z 2);
                      (Py.float_of_Z 3, Py.float_of_Z (-4))])
    by (vm_compute; reflexivity).
  split; [exact H|].
  destruct (append_line_data_ri (fun _ => Raise (builtin OverflowError))
              (Py.float_of_Z 7) ["1"; "2"; "3"; "-4"] _
              (Touchstone.mk "f" [[]; []; []; []] []
                 (Options.mk "ghz" "s" "ri" 50))
              eq_refl H ltac:(cbn; lia)) as (o' & Hrun & Hnth & _).
  exists o'. split; [exact Hrun|]. exact (Hnth 1%nat).
Defined.

Lemma loads_comments_start_with_bang_witness :
  Forall (fun c => Py.startswith c "!" = true)
         (Touchstone.comments
            (fst (Touchstone.loads (fun _ => Raise (builtin OverflowError))
                    ("! made by hand" ++ LF ++ "# RI" ++ LF ++ "1 1 2" ++ LF)%string
                    (Touchstone.mk "f" [[]; []; []; []] ["! earlier"]
                       Options.default)))).
Proof.
  apply (loads_comments_start_with_bang (fun _ => Raise (builtin OverflowError))).
  repeat constructor.
Defined.

Lemma polar_formats_store_nothing_witness :
  Options.format
    (Touchstone.opts
       (fst (Touchstone.loads (fun _ => Raise (builtin OverflowError))
               ("# DB" ++ LF ++ "1 0 0" ++ LF)%string (Touchstone.init "f"))))
  = "db"
  /\ Touchstone.sdata
       (fst (Touchstone.loads (fun _ => Raise (builtin OverflowError))
               ("# DB" ++ LF ++ "1 0 0" ++ LF)%string (Touchstone.init "f")))
     = [[]; []; []; []].
Proof.
  split; [reflexivity|].
  apply (polar_formats_store_nothing (fun _ => Raise (builtin OverflowError))
           ("# DB" ++ LF ++ "1 0 0" ++ LF)%string (Touchstone.init "f")).
  right. reflexivity.
Defined.

Lemma not_an_option_line_witness :
  Touchstone.loads (fun _ => Raise (builtin OverflowError))
    ("! note" ++ LF ++ "  1 1 2 " ++ LF ++ "2 1 2" ++ LF)%string
    (Touchstone.init "f")
  = (Touchstone.mk "f" [[]; []; []; []] ["! note"] Options.default,
     Raise (raised TypeError "Not an option line: 1 1 2")).
Proof.
  exact (proj1 (not_an_option_line (fun _ => Raise (builtin OverflowError))
                  ("! note" ++ LF ++ "  1 1 2 " ++ LF ++ "2 1 2" ++ LF)%string
                  (Touchstone.init "f")
                  [("! note" ++ LF)%string] ("  1 1 2 " ++ LF)%string
                  [("2 1 2" ++ LF)%string] (fun _ => FileIOError)
                  eq_refl ltac:(repeat constructor) eq_refl eq_refl)).
Defined.

Lemma unit_header_raises_witness :
  Touchstone.load (fun _ => Raise (builtin OverflowError))
    (fun _ => FileText ("! note" ++ LF ++ "# GHZ S RI R 50" ++ LF
                        ++ "1 1 2" ++ LF)%string)
    (Touchstone.init "f")
  = (Touchstone.mk "f" [[]; []; []; []] ["! note"] Options.default,
     Raise (builtin AttributeError)).
Proof.
  exact (proj2 (unit_header_raises (fun _ => Raise (builtin OverflowError))
                  ("! note" ++ LF ++ "# GHZ S RI R 50" ++ LF ++ "1 1 2" ++ LF)%string
                  (Touchstone.init "f")
                  [("! note" ++ LF)%string] ("# GHZ S RI R 50" ++ LF)%string
                  [("1 1 2" ++ LF)%string] "ghz" ["s"; "ri"; "r"; "50"]
                  (fun _ => FileText ("! note" ++ LF ++ "# GHZ S RI R 50" ++ LF
                                      ++ "1 1 2" ++ LF)%string)
                  eq_refl ltac:(repeat constructor) eq_refl eq_refl eq_refl
                  eq_refl) eq_refl).
Defined.

Lemma loaded_header_has_no_unit_witness :
  exists pre l rest,
    Py.readlines ("! note" ++ LF ++ "# S RI R 50" ++ LF ++ "1 1 2" ++ LF)%string
    = pre ++ l :: rest
    /\ Forall (fun c => is_comment c = true) pre
    /\ is_comment l = false
    /\ Py.startswith (Py.strip l) "#" = true
    /\ Forall (fun tok => Py.mem tok Options.VALID_UNITS = false)
              (option_tokens (Py.strip l)).
Proof.
  apply (loaded_header_has_no_unit (fun _ => Raise (builtin OverflowError))
           ("! note" ++ LF ++ "# S RI R 50" ++ LF ++ "1 1 2" ++ LF)%string
           (Touchstone.init "f")
           (fst (Touchstone.loads (fun _ => Raise (builtin OverflowError))
                   ("! note" ++ LF ++ "# S RI R 50" ++ LF ++ "1 1 2" ++ LF)%string
                   (Touchstone.init "f")))).
  vm_compute. reflexivity.
Defined.

Lemma loads_series_ascend_witness :
  chain (freqs (Touchstone.s11data
                  (fst (Touchstone.loads (fun _ => Raise (builtin OverflowError))
                          ("# RI" ++ LF ++ "1 1 2" ++ LF ++ "2 3 4" ++ LF
                           ++ "3 5 x" ++ LF)%string
                          (Touchstone.init "f"))))).
Proof.
  apply (loads_series_ascend (fun _ => Raise (builtin OverflowError))
           ("# RI" ++ LF ++ "1 1 2" ++ LF ++ "2 3 4" ++ LF ++ "3 5 x" ++ LF)%string
           (Touchstone.init "f") 0%nat).
  - intros [|[|[|[|[|i]]]]]; reflexivity.
  - vm_compute. reflexivity.
Defined.

Lemma loads_series_same_length_witness :
  same_length
    (Touchstone.sdata
       (fst (Touchstone.loads (fun _ => Raise (builtin OverflowError))
               ("# RI" ++ LF ++ "1 1 2 3 4" ++ LF ++ "2 5 6 7 8" ++ LF)%string
               (Touchstone.init "f")))).
Proof.
  apply (loads_series_same_length (fun _ => Raise (builtin OverflowError))
           ("# RI" ++ LF ++ "1 1 2 3 4" ++ LF ++ "2 5 6 7 8" ++ LF)%string
           (Touchstone.init "f")).
  - intros [|[|[|[|[|i]]]]]; reflexivity.
  - vm_compute. reflexivity.
Defined.

Lemma comment_line_among_data_witness :
  spaces "  " = true
  /\ Touchstone.data_lines (fun _ => Raise (builtin OverflowError))
       [("  " ++ String "!" (" second block" ++ LF))%string; ("2 3 4" ++ LF)%string]
       (Py.float_of_Z (10 ^ 9)) 2
       (Touchstone.mk "f" [[]; []; []; []] [] (Options.mk "ghz" "s" "ri" 50))
     = (Touchstone.mk "f" [[]; []; []; []] [] (Options.mk "ghz" "s" "ri" 50),
        Raise (builtin IndexError)).
Proof.
  split; [reflexivity|].
  apply (comment_line_among_data (fun _ => Raise (builtin OverflowError))
           "  " (" second block" ++ LF)%string).
  reflexivity.
Defined.

Lemma inline_comment_dropped_witness :
  Touchstone.data_lines (fun _ => Raise (builtin OverflowError))
    [("1 1 2 " ++ String "!" (" port 1" ++ LF))%string] fzero 0
    (Touchstone.mk "f" [[]; []; []; []] [] (Options.mk "ghz" "s" "ri" 50))
  = (Touchstone.mk "f"
       [[mkDatapoint (Py.float_of_Z (10 ^ 9)) (Py.float_of_Z 1) (Py.float_of_Z 2)];
        []; []; []]
       [] (Options.mk "ghz" "s" "ri" 50),
     Ok tt).
Proof.
  apply (inline_comment_dropped (fun _ => Raise (builtin OverflowError))
           "1 1 2 " (" port 1" ++ LF)%string []).
  - reflexivity.
  - reflexivity.
  - vm_compute. reflexivity.
Defined.

Lemma loads_again_witness :
  snd (Touchstone.loads (fun _ => Raise (builtin OverflowError))
         ("# RI" ++ LF ++ "1 1 2" ++ LF ++ "2 3 4" ++ LF)%string
         (fst (Touchstone.loads (fun _ => Raise (builtin OverflowError))
                 ("# RI" ++ LF ++ "1 1 2" ++ LF ++ "2 3 4" ++ LF)%string
                 (Touchstone.init "f"))))
  = Ok tt.
Proof.
  apply (loads_again (fun _ => Raise (builtin OverflowError))
           ("# RI" ++ LF ++ "1 1 2" ++ LF ++ "2 3 4" ++ LF)%string
           (Touchstone.init "f")).
  vm_compute. reflexivity.
Defined.

Lemma load_two_files_witness :
  Touchstone.s11data
    (fst (Touchstone.load (fun _ => Raise (builtin OverflowError))
            (fun name => if String.eqb name "a.s1p"
                         then FileText ("# RI" ++ LF ++ "1 1 2" ++ LF)%string
                         else FileText ("# RI" ++ LF ++ "1 3 4" ++ LF)%string)
            (fst (Touchstone.setFilename "b.s1p"
                    (fst (Touchstone.load (fun _ => Raise (builtin OverflowError))
                            (fun name => if String.eqb name "a.s1p"
                                         then FileText ("# RI" ++ LF ++ "1 1 2" ++ LF)%string
                                         else FileText ("# RI" ++ LF ++ "1 3 4" ++ LF)%string)
                            (Touchstone.init "a.s1p")))))))
  = [mkDatapoint (Py.float_of_Z (10 ^ 9)) (Py.float_of_Z 1) (Py.float_of_Z 2);
     mkDatapoint (Py.float_of_Z (10 ^ 9)) (Py.float_of_Z 3) (Py.float_of_Z 4)].
Proof.
  pose proof (load_two_files (fun _ => Raise (builtin OverflowError))
                (fun name => if String.eqb name "a.s1p"
                             then FileText ("# RI" ++ LF ++ "1 1 2" ++ LF)%string
                             else FileText ("# RI" ++ LF ++ "1 3 4" ++ LF)%string)
                "b.s1p" ("# RI" ++ LF ++ "1 1 2" ++ LF)%string
                ("# RI" ++ LF ++ "1 3 4" ++ LF)%string
                (Touchstone.init "a.s1p") eq_refl eq_refl) as [_ H].
  unfold Touchstone.s11data. rewrite (H 0%nat). vm_compute. reflexivity.
Defined.

Lemma load_catches_witness :
  Touchstone.load (fun _ => Raise (builtin OverflowError))
    (fun _ => FileIOError) (Touchstone.init "missing.s2p")
  = (Touchstone.init "missing.s2p", Ok tt).
Proof.
  exact (proj1 (proj2 (load_catches (fun _ => Raise (builtin OverflowError))
                         (fun _ => FileIOError) (Touchstone.init "missing.s2p")))
           eq_refl).
Defined.

Lemma parse_reads_any_resistance_witness :
  (String.length (Py.str_of_int (Z.abs (-5))) <= Py.max_str_digits)%nat
  /\ Options.parse (Some "# R -5") Options.default
     = (Options.mk "ghz" "s" "ma" (-5), Ok tt).
Proof.
  assert (H : (String.length (Py.str_of_int (Z.abs (-5)))
               <= Py.max_str_digits)%nat)
    by (apply Nat.leb_le; vm_compute; reflexivity).
  split; [exact H|].
  exact (parse_reads_any_resistance (-5) Options.default H).
Defined.

(** C8, where the code departs from the claim.  The claim: two calls of
    [loads] with two valid bodies keep the points of the first call and
    append the points of the second body behind them.  The code: for
    valid bodies whose options line names the unit, each call raises
    [AttributeError] at the unit token and appends nothing; for valid
    bodies in the format [ma], each call raises [TypeError] at the first
    pair and appends nothing; the series are empty after both calls.  For
    bodies in the format [ri] without a unit the points of both bodies
    are stored, in the order of the calls. *)
Theorem loads_twice_valid_bodies math_exp :
  let unit1 := ("# GHZ S RI R 50" ++ LF ++ "1 1 2" ++ LF ++ "2 3 4" ++ LF)%string in
  let unit2 := ("# GHZ S RI R 50" ++ LF ++ "3 5 6" ++ LF)%string in
  let ma1 := ("# S MA R 50" ++ LF ++ "1 1 0" ++ LF)%string in
  let ma2 := ("# S MA R 50" ++ LF ++ "2 1 90" ++ LF)%string in
  let ri1 := ("# S RI R 50" ++ LF ++ "1 1 2" ++ LF ++ "2 3 4" ++ LF)%string in
  let ri2 := ("# S RI R 50" ++ LF ++ "3 5 6" ++ LF)%string in
  let f n := Py.float_of_Z n in
  Touchstone.loads math_exp unit1 (Touchstone.init "f")
  = (Touchstone.init "f", Raise (builtin AttributeError))
  /\ Touchstone.loads math_exp unit2
       (fst (Touchstone.loads math_exp unit1 (Touchstone.init "f")))
     = (Touchstone.init "f", Raise (builtin AttributeError))
  /\ Touchstone.loads math_exp ma1 (Touchstone.init "f")
     = (Touchstone.init "f", Raise (builtin TypeError))
  /\ Touchstone.loads math_exp ma2
       (fst (Touchstone.loads math_exp ma1 (Touchstone.init "f")))
     = (Touchstone.init "f", Raise (builtin TypeError))
  /\ Touchstone.loads math_exp ri2
       (fst (Touchstone.loads math_exp ri1 (Touchstone.init "f")))
     = (Touchstone.mk "f"
          [[mkDatapoint (f (10 ^ 9)) (f 1) (f 2);
            mkDatapoint (f (2 * 10 ^ 9)) (f 3) (f 4);
            mkDatapoint (f (3 * 10 ^ 9)) (f 5) (f 6)];
           []; []; []]
          [] (Options.mk "ghz" "s" "ri" 50),
        Ok tt).
Proof. repeat split. Qed.
